(** * metadata_converter.py: NIC metadata to Dublin Core and DCAT

    A shallow embedding of [src/metadata_converter.py] and the properties
    of its field normalizers, identifier synthesis and the two graph
    builders.

    Modelling conventions.
    - A Python [str] is a Rocq [string]: a sequence of characters with
      code points below 256.  [str.lower], [str.strip], [int] and the
      regular expressions of [datetime.strptime] are given on that range.
      [strftime] writes a year as the C library of Linux does, without
      leading zeros.
    - A cell of a pandas row is a [value]: [None], the float [nan], a
      [str], an [int], a [bool] or another float.  A float other than
      [nan] is kept through what the program can observe of it, its
      [str()] and its [int()].
    - A row is a finite map from column names to cells, the table a list
      of rows under the default [RangeIndex] of [pd.read_csv].
    - An rdflib term is a [URIRef] over its text or a [Literal] over its
      value and datatype.  [URIRef(v)] on a cell raises unless the cell is
      a text.  [Literal(text, datatype=XSD.date)] is stored under the
      lexical form rdflib gives the text, which the class [Rdflib] leaves
      open: every statement holds whatever that form is.  An rdflib [Graph]
      is a duplicate-free collection of triples.
    - The loop bodies of the two builders are state transformers over the
      pair of the graph and the list of flat records; the one of the DCAT
      builder may raise, and then the builder returns nothing. *)

From Stdlib Require Import ZArith Ascii String List Bool Lia.
From stdpp Require Import base option list strings gmap pretty.

Local Open Scope Z_scope.

(** ** Python text *)

Module PyStr.

Definition code (c : ascii) : N := N_of_ascii c.

(** [str.isspace] on one character. *)
Definition is_space (c : ascii) : bool :=
  let n := code c in
  ((9 <=? n) && (n <=? 13) || (28 <=? n) && (n <=? 32)
   || (n =? 133) || (n =? 160))%N.

(** The whitespace [int] skips around a number: that of C's [isspace]
    and, of the characters from 128 on, those of [str.isspace]. *)
Definition is_space_int (c : ascii) : bool :=
  let n := code c in
  ((9 <=? n) && (n <=? 13) || (n =? 32) || (n =? 133) || (n =? 160))%N.

Definition is_digit (c : ascii) : bool :=
  let n := code c in ((48 <=? n) && (n <=? 57))%N.

Definition digit_val (c : ascii) : Z := Z.of_N (code c) - 48.

(** The characters [str.lower] changes: A to Z and the capital letters
    from 192 to 222. *)
Definition is_upper (c : ascii) : bool :=
  let n := code c in
  ((65 <=? n) && (n <=? 90)
   || (192 <=? n) && (n <=? 222) && negb (n =? 215))%N.

Definition lower_char (c : ascii) : ascii :=
  if is_upper c then ascii_of_N (code c + 32) else c.

(** [s.lower()] *)
Fixpoint lower (s : string) : string :=
  match s with
  | EmptyString => EmptyString
  | String c s' => String (lower_char c) (lower s')
  end.

Fixpoint lstrip_with (ws : ascii -> bool) (s : string) : string :=
  match s with
  | EmptyString => EmptyString
  | String c s' => if ws c then lstrip_with ws s' else s
  end.

Fixpoint rstrip_with (ws : ascii -> bool) (s : string) : string :=
  match s with
  | EmptyString => EmptyString
  | String c s' =>
      match rstrip_with ws s' with
      | EmptyString => if ws c then EmptyString else String c EmptyString
      | r => String c r
      end
  end.

Definition strip_with (ws : ascii -> bool) (s : string) : string :=
  rstrip_with ws (lstrip_with ws s).

(** [s.strip()] *)
Definition strip (s : string) : string := strip_with is_space s.

(** [s.split(sep)] for a one-character separator. *)
Fixpoint split (sep : ascii) (s : string) : list string :=
  match s with
  | EmptyString => [EmptyString]
  | String c s' =>
      if Ascii.eqb c sep then EmptyString :: split sep s'
      else match split sep s' with
           | x :: xs => String c x :: xs
           | [] => [String c EmptyString]
           end
  end.

(** [s.startswith(p)] *)
Definition startswith (p s : string) : bool := String.prefix p s.

(** Digits with single underscores between them, as [int] reads them;
    [acc] is the value so far, [n] the number of digits so far and
    [after_digit] tells whether the last character was a digit. *)
Fixpoint int_digits (s : string) (acc : Z) (n : nat) (after_digit : bool)
  : option (Z * nat) :=
  match s with
  | EmptyString => if after_digit then Some (acc, n) else None
  | String c s' =>
      if is_digit c then int_digits s' (10 * acc + digit_val c) (S n) true
      else if Ascii.eqb c "_" && after_digit then int_digits s' acc n false
      else None
  end.

Definition int_max_str_digits : nat := 4300.

Definition int_unsigned (s : string) : option Z :=
  match int_digits s 0 0%nat false with
  | Some (z, n) => if (int_max_str_digits <? n)%nat then None else Some z
  | None => None
  end.

(** [int(s)] in base ten; [None] stands for [ValueError]. *)
Definition to_int (s : string) : option Z :=
  match strip_with is_space_int s with
  | String "+" r => int_unsigned r
  | String "-" r => Z.opp <$> int_unsigned r
  | r => int_unsigned r
  end.

End PyStr.

(** ** Cells *)

(** A float other than [nan]: [float_repr] is its [str()], [float_int]
    its [int()], [None] when that raises [OverflowError]. *)
Record pyfloat := PyFloat { float_repr : string; float_int : option Z }.

Inductive value :=
| VNone
| VNaN
| VStr (s : string)
| VInt (z : Z)
| VBool (b : bool)
| VFloat (f : pyfloat).

#[global] Instance pyfloat_eq_dec : EqDecision pyfloat.
Proof. solve_decision. Defined.

#[global] Instance value_eq_dec : EqDecision value.
Proof. solve_decision. Defined.

(** [pd.notna(v)] and [pd.isna(v)] *)
Definition notna (v : value) : bool :=
  match v with
  | VNone | VNaN => false
  | _ => true
  end.

Definition isna (v : value) : bool := negb (notna v).

(** [str(v)], also what an f-string puts for [{v}]. *)
Definition py_str (v : value) : string :=
  match v with
  | VNone => "None"
  | VNaN => "nan"
  | VStr s => s
  | VInt z => pretty z
  | VBool true => "True"
  | VBool false => "False"
  | VFloat f => float_repr f
  end.

(** [int(v)]; [None] stands for the exception the caller swallows. *)
Definition py_int (v : value) : option Z :=
  match v with
  | VNone | VNaN => None
  | VStr s => PyStr.to_int s
  | VInt z => Some z
  | VBool b => Some (if b then 1 else 0)
  | VFloat f => float_int f
  end.

(** Truth value of an optional text, as in [if desc:]. *)
Definition truthy (o : option string) : bool :=
  match o with
  | Some s => negb (String.eqb s "")
  | None => false
  end.

(** ** Rows and tables *)

Abbreviation Row := (gmap string value).
Abbreviation DataFrame := (list Row).

(** [row.get(key, default)] *)
Definition row_get (row : Row) (key : string) (default : value) : value :=
  from_option id default (row !! key).

(** [row.get(key)] *)
Definition get (row : Row) (key : string) : value := row_get row key VNone.

(** [row[key]]; every use in the program is under the guard
    [pd.notna(row.get(key))], where the key exists (see [item_guarded]). *)
Definition item (row : Row) (key : string) : value := get row key.

(** ** Field normalizers *)

Definition freq_mapping : list (string * string) :=
  [ ("daily", "http://purl.org/cld/freq/daily");
    ("weekly", "http://purl.org/cld/freq/weekly");
    ("monthly", "http://purl.org/cld/freq/monthly");
    ("yearly", "http://purl.org/cld/freq/annual");
    ("quarterly", "http://purl.org/cld/freq/quarterly") ].

(** [d.get(key, default)] on a dict given by its items. *)
Fixpoint dict_get (d : list (string * string)) (key default : string) : string :=
  match d with
  | [] => default
  | (k, v) :: d' => if String.eqb k key then v else dict_get d' key default
  end.

Definition normalize_frequency (freq : value) : option string :=
  if notna freq then
    let freq_lower := PyStr.strip (PyStr.lower (py_str freq)) in
    Some (dict_get freq_mapping freq_lower freq_lower)
  else None.

(** ** [datetime.strptime] and [strftime] for the formats of [parse_date] *)

Module Strptime.

Inductive field := FDay | FMonth | FYear.

#[global] Instance field_eq_dec : EqDecision field.
Proof. solve_decision. Defined.

Definition cls := ascii -> bool.

Definition one (c : ascii) : cls := Ascii.eqb c.

Definition range (a b : ascii) : cls :=
  fun c => ((PyStr.code a <=? PyStr.code c) && (PyStr.code c <=? PyStr.code b))%N.

(** A compiled format: literal characters and directives, each directive
    a named group with its alternatives in the order of the regular
    expression. *)
Inductive item :=
| Chr (c : ascii)
| Grp (f : field) (alts : list (list cls)).

(** [3[0-1]|[1-2]\d|0[1-9]|[1-9]| [1-9]] *)
Definition d_alts : list (list cls) :=
  [ [one "3"; range "0" "1"];
    [range "1" "2"; PyStr.is_digit];
    [one "0"; range "1" "9"];
    [range "1" "9"];
    [one " "; range "1" "9"] ].

(** [1[0-2]|0[1-9]|[1-9]] *)
Definition m_alts : list (list cls) :=
  [ [one "1"; range "0" "2"];
    [one "0"; range "1" "9"];
    [range "1" "9"] ].

(** [\d\d\d\d] *)
Definition Y_alts : list (list cls) :=
  [ [PyStr.is_digit; PyStr.is_digit; PyStr.is_digit; PyStr.is_digit] ].

(** A character of a format that stands for itself in the regular
    expression: neither white space, which matches any run of white space,
    nor a letter, which matches in either case. *)
Definition plain (c : ascii) : bool :=
  negb (PyStr.is_space c) && negb (PyStr.is_upper c)
  && negb (PyStr.is_upper (ascii_of_N (PyStr.code c - 32)))
  && negb (Ascii.eqb c "%").

(** The directives [%d], [%m] and [%Y] between plain characters; [None]
    for any other format, which this program does not use. *)
Fixpoint compile (format : string) : option (list item) :=
  match format with
  | EmptyString => Some []
  | String "%" (String d rest) =>
      match d with
      | "d"%char => cons (Grp FDay d_alts) <$> compile rest
      | "m"%char => cons (Grp FMonth m_alts) <$> compile rest
      | "Y"%char => cons (Grp FYear Y_alts) <$> compile rest
      | _ => None
      end
  | String c rest => if plain c then cons (Chr c) <$> compile rest else None
  end.

(** One alternative against a prefix of [s]: the matched text and the
    rest. *)
Fixpoint match_alt (alt : list cls) (s : string) : option (string * string) :=
  match alt with
  | [] => Some (EmptyString, s)
  | p :: alt' =>
      match s with
      | String c s' =>
          if p c then
            match match_alt alt' s' with
            | Some (m, r) => Some (String c m, r)
            | None => None
            end
          else None
      | EmptyString => None
      end
  end.

(** [re.match]: the first match in backtracking order, anchored at the
    start only; the captures and the unconsumed rest of the text. *)
Fixpoint regex_match (re : list item) (s : string)
  : option (list (field * string) * string) :=
  match re with
  | [] => Some ([], s)
  | Chr c :: re' =>
      match s with
      | String c' s' => if Ascii.eqb c c' then regex_match re' s' else None
      | EmptyString => None
      end
  | Grp f alts :: re' =>
      (fix try (alts : list (list cls)) :=
         match alts with
         | [] => None
         | alt :: alts' =>
             match match_alt alt s with
             | Some (m, r) =>
                 match regex_match re' r with
                 | Some (caps, rest) => Some ((f, m) :: caps, rest)
                 | None => try alts'
                 end
             | None => try alts'
             end
         end) alts
  end.

Record date := Date { year : Z; month : Z; day : Z }.

Definition is_leap (y : Z) : bool :=
  (y mod 4 =? 0) && (negb (y mod 100 =? 0) || (y mod 400 =? 0)).

Definition days_in_month (y m : Z) : Z :=
  if m =? 2 then (if is_leap y then 29 else 28)
  else if (m =? 4) || (m =? 6) || (m =? 9) || (m =? 11) then 30
  else 31.

(** [datetime.date(y, m, d)]: [None] for [ValueError]. *)
Definition make_date (y m d : Z) : option date :=
  if (1 <=? y) && (y <=? 9999) && (1 <=? m) && (m <=? 12)
     && (1 <=? d) && (d <=? days_in_month y m)
  then Some (Date y m d) else None.

Fixpoint capture (f : field) (caps : list (field * string)) : option string :=
  match caps with
  | [] => None
  | (f', m) :: caps' => if decide (f = f') then Some m else capture f caps'
  end.

(** The number of a captured group, or the default of a directive the
    format does not have. *)
Definition group_int (f : field) (caps : list (field * string)) (default : Z)
  : option Z :=
  match capture f caps with
  | Some m => PyStr.to_int m
  | None => Some default
  end.

(** [datetime.strptime(data_string, format)]; [None] for [ValueError]
    (no match, unconverted data remains, or no such day). *)
Definition strptime (data_string format : string) : option date :=
  re ← compile format;
  '(caps, rest) ← regex_match re data_string;
  match rest with
  | EmptyString =>
      y ← group_int FYear caps 1900;
      m ← group_int FMonth caps 1;
      d ← group_int FDay caps 1;
      make_date y m d
  | _ => None
  end.

Fixpoint zeros (n : nat) : string :=
  match n with
  | O => EmptyString
  | S n' => String "0" (zeros n')
  end.

(** A non-negative number in at least [width] digits. *)
Definition pad (width : nat) (z : Z) : string :=
  let s := pretty z in zeros (width - String.length s) +:+ s.

(** [dt.strftime('%Y-%m-%d')]; the year is written as the C library
    writes [%Y], in as many digits as it has: four from the year 1000 on,
    fewer below. *)
Definition strftime_iso (dt : date) : string :=
  pretty (year dt) +:+ "-" +:+ pad 2 (month dt) +:+ "-" +:+ pad 2 (day dt).

End Strptime.

Definition date_formats : list string := ["%d/%m/%Y"; "%Y-%m-%d"; "%m/%d/%Y"].

(** The loop of [parse_date]: the first format that parses wins, a format
    that raises is skipped. *)
Fixpoint try_formats (fmts : list string) (s : string) : option string :=
  match fmts with
  | [] => None
  | fmt :: fmts' =>
      match Strptime.strptime s fmt with
      | Some dt => Some (Strptime.strftime_iso dt)
      | None => try_formats fmts' s
      end
  end.

(** [parse_date]; the outer handler of the source guards only [str] and the
    loop, neither of which raises. *)
Definition parse_date (date_str : value) : option string :=
  if isna date_str then None
  else match try_formats date_formats (py_str date_str) with
       | Some iso => Some iso
       | None => Some (py_str date_str)
       end.

Definition get_publisher (row : Row) : option string :=
  if notna (get row "ministry_department") then
    Some (py_str (item row "ministry_department"))
  else if notna (get row "state_department") then
    Some (py_str (item row "state_department"))
  else None.

Definition get_description (row : Row) : option string :=
  if notna (get row "catalog_title") then
    let desc := py_str (item row "catalog_title") in
    if notna (get row "note") then Some (desc +:+ ". " +:+ py_str (item row "note"))
    else Some desc
  else if notna (get row "note") then Some (py_str (item row "note"))
  else None.

(** ** RDF terms, triples and graphs *)

Inductive term :=
| URIRef (s : string)
| Literal (v : value) (datatype : option string).

#[global] Instance term_eq_dec : EqDecision term.
Proof. solve_decision. Defined.

(** [str(t)] *)
Definition term_str (t : term) : string :=
  match t with
  | URIRef s => s
  | Literal v _ => py_str v
  end.

Definition DCAT (name : string) : term := URIRef ("http://www.w3.org/ns/dcat#" +:+ name).
Definition DCT (name : string) : term := URIRef ("http://purl.org/dc/terms/" +:+ name).
Definition RDF_type : term := URIRef "http://www.w3.org/1999/02/22-rdf-syntax-ns#type".
Definition XSD_date : string := "http://www.w3.org/2001/XMLSchema#date".
Definition XSD_integer : string := "http://www.w3.org/2001/XMLSchema#integer".

(** The lexical form under which rdflib stores [Literal(text,
    datatype=XSD.date)]: the text itself when rdflib cannot read it as a
    date, the date it reads, written anew, when it can. *)
Class Rdflib := { xsd_date_lexical : string -> string }.

(** [Literal(text, datatype=XSD.date)] *)
Definition date_literal `{Rdflib} (text : string) : term :=
  Literal (VStr (xsd_date_lexical text)) (Some XSD_date).

(** [URIRef(v)] on a cell: rdflib looks for forbidden characters in [v],
    which raises [TypeError] unless [v] is a text; [None] stands for that
    exception. *)
Definition URIRef_of (v : value) : option term :=
  match v with
  | VStr s => Some (URIRef s)
  | _ => None
  end.

Definition triple : Type := term * term * term.

Definition subject (t : triple) : term := t.1.1.
Definition predicate (t : triple) : term := t.1.2.
Definition object (t : triple) : term := t.2.

(** A graph holds a triple at most once; the list keeps the order of first
    insertion. *)
Definition Graph : Type := list triple.

(** [g.add(t)] *)
Definition graph_add (t : triple) (g : Graph) : Graph :=
  if decide (t ∈ g) then g else g ++ [t].

(** A text or [None] as a cell of a flat record or the argument of
    [Literal]. *)
Definition opt_val (o : option string) : value := from_option VStr VNone o.

(** ** Flat records *)

Module Dublin.
Record record := Record {
  dataset_uri : string;
  title : value;
  description : option string;
  issued : option string;
  modified : option string;
  created : option string;
  publisher : option string;
  accrualPeriodicity : option string;
  subject : value;
  landingPage : option string }.
End Dublin.

Module Dcat.
Record record := Record {
  dataset_uri : string;
  distribution_uri : string;
  distribution_type : string;
  accessURL : value;
  downloadURL : value;
  format : value;
  byteSize : value;
  title : value }.
End Dcat.

(** ** Statements of a builder *)

Section Statements.
Context {R : Type}.

(** The graph [g] and the list of flat records of a builder. *)
Definition state : Type := Graph * list R.

Definition stmt : Type := state -> state.

Definition skip : stmt := fun st => st.

Definition seq (a b : stmt) : stmt := fun st => b (a st).

Definition g_add (t : triple) : stmt := fun st => (graph_add t st.1, st.2).

Definition data_append (r : R) : stmt := fun st => (st.1, st.2 ++ [r]).

Definition when (c : bool) (a : stmt) : stmt := if c then a else skip.

Fixpoint for_each {A : Type} (l : list A) (body : A -> stmt) : stmt :=
  match l with
  | [] => skip
  | x :: l' => seq (body x) (for_each l' body)
  end.

(** [for idx, row in df.iterrows()], the index counted from [idx]. *)
Fixpoint iterrows_from (idx : nat) (df : DataFrame) (body : nat -> Row -> stmt)
  : stmt :=
  match df with
  | [] => skip
  | row :: df' => seq (body idx row) (iterrows_from (S idx) df' body)
  end.

Definition iterrows (df : DataFrame) (body : nat -> Row -> stmt) : stmt :=
  iterrows_from 0 df body.

(** A statement that may raise: [None] when an exception leaves the
    builder, which then returns nothing. *)
Definition try_stmt : Type := state -> option state.

Definition lift (a : stmt) : try_stmt := fun st => Some (a st).

Definition try_seq (a b : try_stmt) : try_stmt :=
  fun st => match a st with Some st' => b st' | None => None end.

Definition try_when (c : bool) (a : try_stmt) : try_stmt :=
  if c then a else lift skip.

(** A statement that uses a value whose evaluation may raise. *)
Definition eval {A : Type} (o : option A) (k : A -> stmt) : try_stmt :=
  fun st => match o with Some x => Some (k x st) | None => None end.

Fixpoint try_iterrows_from (idx : nat) (df : DataFrame)
  (body : nat -> Row -> try_stmt) : try_stmt :=
  match df with
  | [] => lift skip
  | row :: df' => try_seq (body idx row) (try_iterrows_from (S idx) df' body)
  end.

Definition try_iterrows (df : DataFrame) (body : nat -> Row -> try_stmt) : try_stmt :=
  try_iterrows_from 0 df body.
End Statements.

Arguments state : clear implicits.
Arguments stmt : clear implicits.
Arguments try_stmt : clear implicits.

Declare Scope stmt_scope.
Delimit Scope stmt_scope with stmt.
Notation "a ;; b" := (seq a%stmt b%stmt)
  (at level 100, b at level 200, right associativity) : stmt_scope.

Declare Scope try_scope.
Delimit Scope try_scope with try.
Notation "a ;; b" := (try_seq a%try b%try)
  (at level 100, b at level 200, right associativity) : try_scope.

(** ** The Dublin Core builder *)

(** One iteration of the loop of [create_dublin_core_graph]. *)
Definition dublin_core_row `{Rdflib} (idx : nat) (row : Row) : stmt Dublin.record :=
  (let node_alias := row_get row "node_alias" (VStr "") in
   let dataset_uri :=
     if notna node_alias then URIRef ("https://data.gov.in" +:+ py_str node_alias)
     else URIRef ("https://data.gov.in/dataset/" +:+ pretty idx) in
   when (notna (get row "title"))
     (g_add (dataset_uri, DCT "title", Literal (item row "title") None)) ;;
   let desc := get_description row in
   when (truthy desc)
     (g_add (dataset_uri, DCT "description", Literal (opt_val desc) None)) ;;
   let issued := parse_date (get row "published_date") in
   when (truthy issued)
     (g_add (dataset_uri, DCT "issued", date_literal (py_str (opt_val issued)))) ;;
   let modified := parse_date (get row "changed") in
   when (truthy modified)
     (g_add (dataset_uri, DCT "modified", date_literal (py_str (opt_val modified)))) ;;
   let created := parse_date (get row "created") in
   when (truthy created)
     (g_add (dataset_uri, DCT "created", date_literal (py_str (opt_val created)))) ;;
   let publisher := get_publisher row in
   when (truthy publisher)
     (g_add (dataset_uri, DCT "publisher", Literal (opt_val publisher) None)) ;;
   let freq := normalize_frequency (get row "frequency") in
   when (truthy freq)
     (if PyStr.startswith "http" (py_str (opt_val freq)) then
        g_add (dataset_uri, DCT "accrualPeriodicity", URIRef (py_str (opt_val freq)))
      else
        g_add (dataset_uri, DCT "accrualPeriodicity", Literal (opt_val freq) None)) ;;
   when (notna (get row "sector"))
     (let sectors := PyStr.split ";" (py_str (item row "sector")) in
      for_each sectors (fun sector =>
        g_add (dataset_uri, DCT "subject", Literal (VStr (PyStr.strip sector)) None))) ;;
   when (notna node_alias)
     (let landing_page := "https://data.gov.in" +:+ py_str node_alias in
      g_add (dataset_uri, DCAT "landingPage", URIRef landing_page)) ;;
   data_append {|
     Dublin.dataset_uri := term_str dataset_uri;
     Dublin.title := get row "title";
     Dublin.description := desc;
     Dublin.issued := issued;
     Dublin.modified := modified;
     Dublin.created := created;
     Dublin.publisher := publisher;
     Dublin.accrualPeriodicity := freq;
     Dublin.subject := get row "sector";
     Dublin.landingPage :=
       if notna node_alias then Some ("https://data.gov.in" +:+ py_str node_alias)
       else None |})%stmt.

Definition create_dublin_core_graph `{Rdflib} (df : DataFrame)
  : Graph * list Dublin.record :=
  iterrows df dublin_core_row ([], []).

(** ** The DCAT builder *)

(** One iteration of the loop of [create_dcat_graph]; it raises when
    [URIRef] is given a present cell that is not a text. *)
Definition dcat_row `{Rdflib} (idx : nat) (row : Row) : try_stmt Dcat.record :=
  let node_alias := row_get row "node_alias" (VStr "") in
  let dataset_uri :=
    if notna node_alias then URIRef ("https://data.gov.in" +:+ py_str node_alias)
    else URIRef ("https://data.gov.in/dataset/" +:+ pretty idx) in
  let desc := get_description row in
  let issued := parse_date (get row "published_date") in
  let modified := parse_date (get row "changed") in
  let publisher := get_publisher row in
  let freq := normalize_frequency (get row "frequency") in
  (lift
     (g_add (dataset_uri, RDF_type, DCAT "Dataset") ;;
      when (notna (get row "title"))
        (g_add (dataset_uri, DCT "title", Literal (item row "title") None)) ;;
      when (truthy desc)
        (g_add (dataset_uri, DCT "description", Literal (opt_val desc) None)) ;;
      when (truthy issued)
        (g_add (dataset_uri, DCT "issued", date_literal (py_str (opt_val issued)))) ;;
      when (truthy modified)
        (g_add (dataset_uri, DCT "modified", date_literal (py_str (opt_val modified)))) ;;
      when (truthy publisher)
        (g_add (dataset_uri, DCT "publisher", Literal (opt_val publisher) None)) ;;
      when (truthy freq)
        (if PyStr.startswith "http" (py_str (opt_val freq)) then
           g_add (dataset_uri, DCT "accrualPeriodicity", URIRef (py_str (opt_val freq)))
         else
           g_add (dataset_uri, DCT "accrualPeriodicity", Literal (opt_val freq) None)) ;;
      when (notna (get row "sector"))
        (let sectors := PyStr.split ";" (py_str (item row "sector")) in
         for_each sectors (fun sector =>
           g_add (dataset_uri, DCAT "theme", Literal (VStr (PyStr.strip sector)) None))) ;;
      when (notna node_alias)
        (let landing_page := "https://data.gov.in" +:+ py_str node_alias in
         g_add (dataset_uri, DCAT "landingPage", URIRef landing_page)))%stmt ;;
   try_when (notna (get row "datafile_url"))
     (let dist_uri := URIRef (term_str dataset_uri +:+ "/distribution/api") in
      lift
        (g_add (dist_uri, RDF_type, DCAT "Distribution") ;;
         g_add (dataset_uri, DCAT "distribution", dist_uri))%stmt ;;
      eval (URIRef_of (item row "datafile_url")) (fun access_url =>
        g_add (dist_uri, DCAT "accessURL", access_url)) ;;
      lift
        (when (notna (get row "file_format"))
           (g_add (dist_uri, DCT "format", Literal (item row "file_format") None) ;;
            g_add (dist_uri, DCAT "mediaType", Literal (item row "file_format") None)) ;;
         when (notna (get row "file_size"))
           (match py_int (item row "file_size") with
            | Some size =>
                g_add (dist_uri, DCAT "byteSize", Literal (VInt size) (Some XSD_integer))
            | None => skip
            end) ;;
         data_append {|
           Dcat.dataset_uri := term_str dataset_uri;
           Dcat.distribution_uri := term_str dist_uri;
           Dcat.distribution_type := "API";
           Dcat.accessURL := item row "datafile_url";
           Dcat.downloadURL := VNone;
           Dcat.format := get row "file_format";
           Dcat.byteSize := get row "file_size";
           Dcat.title := get row "title" |})%stmt) ;;
   try_when (notna (get row "datafile"))
     (let dist_uri := URIRef (term_str dataset_uri +:+ "/distribution/file") in
      lift
        (g_add (dist_uri, RDF_type, DCAT "Distribution") ;;
         g_add (dataset_uri, DCAT "distribution", dist_uri))%stmt ;;
      eval (URIRef_of (item row "datafile")) (fun download_url =>
        g_add (dist_uri, DCAT "downloadURL", download_url)) ;;
      lift
        (when (notna (get row "file_format"))
           (g_add (dist_uri, DCT "format", Literal (item row "file_format") None) ;;
            g_add (dist_uri, DCAT "mediaType", Literal (item row "file_format") None)) ;;
         when (notna (get row "file_size"))
           (match py_int (item row "file_size") with
            | Some size =>
                g_add (dist_uri, DCAT "byteSize", Literal (VInt size) (Some XSD_integer))
            | None => skip
            end) ;;
         data_append {|
           Dcat.dataset_uri := term_str dataset_uri;
           Dcat.distribution_uri := term_str dist_uri;
           Dcat.distribution_type := "File";
           Dcat.accessURL := VNone;
           Dcat.downloadURL := item row "datafile";
           Dcat.format := get row "file_format";
           Dcat.byteSize := get row "file_size";
           Dcat.title := get row "title" |})%stmt))%try.

(** [create_dcat_graph]: the graph and the flat records, or [None] when
    an iteration raises. *)
Definition create_dcat_graph `{Rdflib} (df : DataFrame)
  : option (Graph * list Dcat.record) :=
  try_iterrows df dcat_row ([], []).

(** ** Derived views of a row's output *)

(** The dataset URI both builders synthesize for the row at [idx]. *)
Definition dataset_uri (idx : nat) (row : Row) : term :=
  let node_alias := row_get row "node_alias" (VStr "") in
  if notna node_alias then URIRef ("https://data.gov.in" +:+ py_str node_alias)
  else URIRef ("https://data.gov.in/dataset/" +:+ pretty idx).

(** Adding the triples [ts] to [g] one after the other. *)
Definition graph_union (g : Graph) (ts : list triple) : Graph :=
  foldl (fun g t => graph_add t g) g ts.

Section StatementFacts.
Context {R : Type}.
Implicit Types (a b : stmt R) (st : state R).

(** [a] adds the triples [ts], in this order, whatever the state. *)
Definition adds a (ts : list triple) : Prop :=
  forall st, (a st).1 = graph_union st.1 ts.

(** [a] appends the flat records [rs], whatever the state. *)
Definition appends a (rs : list R) : Prop :=
  forall st, (a st).2 = st.2 ++ rs.

(** The statement [a] that may raise returns exactly when [ok], and then
    has added the triples [ts] and appended the flat records [rs]. *)
Definition yields (a : try_stmt R) (ok : bool) (ts : list triple) (rs : list R)
  : Prop :=
  forall st, a st = if ok then Some (graph_union st.1 ts, st.2 ++ rs) else None.
End StatementFacts.

(** What the loop over the rows collects from the iterations. *)
Fixpoint rows_from {B : Type} (idx : nat) (df : DataFrame) (f : nat → Row → list B)
  : list B :=
  match df with
  | [] => []
  | row :: df' => f idx row ++ rows_from (S idx) df' f
  end.


(** The triples one iteration adds, in the order of the [g.add] calls. *)
Definition title_triple (u : term) (row : Row) : list triple :=
  if notna (get row "title")
  then [(u, DCT "title", Literal (item row "title") None)] else [].

Definition description_triple (u : term) (row : Row) : list triple :=
  if truthy (get_description row)
  then [(u, DCT "description", Literal (opt_val (get_description row)) None)]
  else [].

Definition date_triple `{Rdflib} (u : term) (name : string) (v : value)
  : list triple :=
  if truthy (parse_date v)
  then [(u, DCT name, date_literal (py_str (opt_val (parse_date v))))]
  else [].

Definition publisher_triple (u : term) (row : Row) : list triple :=
  if truthy (get_publisher row)
  then [(u, DCT "publisher", Literal (opt_val (get_publisher row)) None)]
  else [].

Definition frequency_triple (u : term) (row : Row) : list triple :=
  let freq := normalize_frequency (get row "frequency") in
  if truthy freq then
    if PyStr.startswith "http" (py_str (opt_val freq))
    then [(u, DCT "accrualPeriodicity", URIRef (py_str (opt_val freq)))]
    else [(u, DCT "accrualPeriodicity", Literal (opt_val freq) None)]
  else [].

Definition sector_triples (u p : term) (row : Row) : list triple :=
  if notna (get row "sector")
  then (fun sector => (u, p, Literal (VStr (PyStr.strip sector)) None))
         <$> PyStr.split ";" (py_str (item row "sector"))
  else [].

Definition landing_triple (u : term) (row : Row) : list triple :=
  let node_alias := row_get row "node_alias" (VStr "") in
  if notna node_alias
  then [(u, DCAT "landingPage", URIRef ("https://data.gov.in" +:+ py_str node_alias))]
  else [].

Definition dublin_core_triples `{Rdflib} (idx : nat) (row : Row) : list triple :=
  let u := dataset_uri idx row in
  title_triple u row ++ description_triple u row
  ++ date_triple u "issued" (get row "published_date")
  ++ date_triple u "modified" (get row "changed")
  ++ date_triple u "created" (get row "created")
  ++ publisher_triple u row ++ frequency_triple u row
  ++ sector_triples u (DCT "subject") row ++ landing_triple u row.

Definition dublin_core_record (idx : nat) (row : Row) : Dublin.record :=
  let node_alias := row_get row "node_alias" (VStr "") in
  {| Dublin.dataset_uri := term_str (dataset_uri idx row);
     Dublin.title := get row "title";
     Dublin.description := get_description row;
     Dublin.issued := parse_date (get row "published_date");
     Dublin.modified := parse_date (get row "changed");
     Dublin.created := parse_date (get row "created");
     Dublin.publisher := get_publisher row;
     Dublin.accrualPeriodicity := normalize_frequency (get row "frequency");
     Dublin.subject := get row "sector";
     Dublin.landingPage :=
       if notna node_alias then Some ("https://data.gov.in" +:+ py_str node_alias)
       else None |}.

(** The URI of a distribution of the dataset [u]. *)
Definition dist_uri (u : term) (suffix : string) : term :=
  URIRef (term_str u +:+ suffix).

Definition size_triple (d : term) (row : Row) : list triple :=
  if notna (get row "file_size") then
    match py_int (item row "file_size") with
    | Some size => [(d, DCAT "byteSize", Literal (VInt size) (Some XSD_integer))]
    | None => []
    end
  else [].

Definition format_triples (d : term) (row : Row) : list triple :=
  if notna (get row "file_format")
  then [(d, DCT "format", Literal (item row "file_format") None);
        (d, DCAT "mediaType", Literal (item row "file_format") None)]
  else [].

(** The URL triple of a distribution; none when [URIRef] raises, where
    the iteration gives nothing at all. *)
Definition url_triple (d : term) (url_pred key : string) (row : Row) : list triple :=
  match URIRef_of (item row key) with
  | Some url => [(d, DCAT url_pred, url)]
  | None => []
  end.

Definition distribution_triples (u : term) (suffix url_pred key : string) (row : Row)
  : list triple :=
  if notna (get row key) then
    let d := dist_uri u suffix in
    [(d, RDF_type, DCAT "Distribution"); (u, DCAT "distribution", d)]
    ++ url_triple d url_pred key row
    ++ format_triples d row ++ size_triple d row
  else [].

(** The cell under [key] is absent or a text, so that [URIRef] takes
    it. *)
Definition url_ok (key : string) (row : Row) : bool :=
  if notna (get row key) then bool_decide (is_Some (URIRef_of (item row key)))
  else true.

(** The iteration for the row does not raise. *)
Definition row_ok (row : Row) : bool :=
  url_ok "datafile_url" row && url_ok "datafile" row.

Definition dcat_triples `{Rdflib} (idx : nat) (row : Row) : list triple :=
  let u := dataset_uri idx row in
  [(u, RDF_type, DCAT "Dataset")]
  ++ title_triple u row ++ description_triple u row
  ++ date_triple u "issued" (get row "published_date")
  ++ date_triple u "modified" (get row "changed")
  ++ publisher_triple u row ++ frequency_triple u row
  ++ sector_triples u (DCAT "theme") row ++ landing_triple u row
  ++ distribution_triples u "/distribution/api" "accessURL" "datafile_url" row
  ++ distribution_triples u "/distribution/file" "downloadURL" "datafile" row.

Definition api_record (idx : nat) (row : Row) : Dcat.record :=
  {| Dcat.dataset_uri := term_str (dataset_uri idx row);
     Dcat.distribution_uri :=
       term_str (dist_uri (dataset_uri idx row) "/distribution/api");
     Dcat.distribution_type := "API";
     Dcat.accessURL := item row "datafile_url";
     Dcat.downloadURL := VNone;
     Dcat.format := get row "file_format";
     Dcat.byteSize := get row "file_size";
     Dcat.title := get row "title" |}.

Definition file_record (idx : nat) (row : Row) : Dcat.record :=
  {| Dcat.dataset_uri := term_str (dataset_uri idx row);
     Dcat.distribution_uri :=
       term_str (dist_uri (dataset_uri idx row) "/distribution/file");
     Dcat.distribution_type := "File";
     Dcat.accessURL := VNone;
     Dcat.downloadURL := item row "datafile";
     Dcat.format := get row "file_format";
     Dcat.byteSize := get row "file_size";
     Dcat.title := get row "title" |}.

Definition dcat_records (idx : nat) (row : Row) : list Dcat.record :=
  (if notna (get row "datafile_url") then [api_record idx row] else [])
  ++ (if notna (get row "datafile") then [file_record idx row] else []).

(** The triples both builders add alike for a dataset. *)
Definition shared_triples `{Rdflib} (u : term) (row : Row) : list triple :=
  title_triple u row ++ description_triple u row
  ++ date_triple u "issued" (get row "published_date")
  ++ date_triple u "modified" (get row "changed")
  ++ publisher_triple u row ++ frequency_triple u row ++ landing_triple u row.

(** The predicates of title, description, issued, modified, publisher,
    frequency and landing page. *)
Definition shared_predicates : list term :=
  [DCT "title"; DCT "description"; DCT "issued"; DCT "modified";
   DCT "publisher"; DCT "accrualPeriodicity"; DCAT "landingPage"].

(** The columns of a source row that the builders read. *)
Definition columns : list string :=
  ["node_alias"; "title"; "catalog_title"; "note"; "published_date"; "changed";
   "created"; "ministry_department"; "state_department"; "frequency"; "sector";
   "datafile_url"; "datafile"; "file_format"; "file_size"].

(** Two rows that hold the same cells in the columns the builders read. *)
Definition rows_agree (r1 r2 : Row) : Prop :=
  forall k, k ∈ columns → r1 !! k = r2 !! k.


(** Checks behind the reading back of a written date: the four digits of
    a year from 1000 on, and the month and day after it. *)
Definition year_ok (y : Z) : bool :=
  match pretty y with
  | String a (String b (String c (String d EmptyString))) =>
      PyStr.is_digit a && PyStr.is_digit b && PyStr.is_digit c && PyStr.is_digit d
      && bool_decide (PyStr.to_int (pretty y) = Some y)
  | _ => false
  end.

(** The four digits of a year as the input of [parse_date] has them. *)
Definition padded_year_ok (y : Z) : bool :=
  match Strptime.pad 4 y with
  | String a (String b (String c (String d EmptyString))) =>
      PyStr.is_digit a && PyStr.is_digit b && PyStr.is_digit c && PyStr.is_digit d
      && bool_decide (PyStr.to_int (Strptime.pad 4 y) = Some y)
  | _ => false
  end.

(** A year below 1000 is written in one to three digits. *)
Definition short_year_ok (y : Z) : bool :=
  match pretty y with
  | String a EmptyString => PyStr.is_digit a
  | String a (String b EmptyString) => PyStr.is_digit a && PyStr.is_digit b
  | String a (String b (String c EmptyString)) =>
      PyStr.is_digit a && PyStr.is_digit b && PyStr.is_digit c
  | _ => false
  end.

Definition month_day_re : list Strptime.item :=
  [Strptime.Chr "-"; Strptime.Grp Strptime.FMonth Strptime.m_alts;
   Strptime.Chr "-"; Strptime.Grp Strptime.FDay Strptime.d_alts].

Definition month_day_ok (m d : Z) : bool :=
  bool_decide
    (Strptime.regex_match month_day_re
       ("-" +:+ Strptime.pad 2 m +:+ "-" +:+ Strptime.pad 2 d)
     = Some ([(Strptime.FMonth, Strptime.pad 2 m); (Strptime.FDay, Strptime.pad 2 d)],
             EmptyString))
  && bool_decide (PyStr.to_int (Strptime.pad 2 m) = Some m)
  && bool_decide (PyStr.to_int (Strptime.pad 2 d) = Some d).

(** The optional text fields of a Dublin Core flat record: the name of the
    predicate, the field, and the literal the graph holds for a text of the
    field. *)
Definition text_fields `{Rdflib}
  : list (string * (Dublin.record → option string) * (string → term)) :=
  [("description", Dublin.description, fun s => Literal (VStr s) None);
   ("issued", Dublin.issued, date_literal);
   ("modified", Dublin.modified, date_literal);
   ("created", Dublin.created, date_literal);
   ("publisher", Dublin.publisher, fun s => Literal (VStr s) None)].

(** The rows of a table in which a cell is present. *)
Definition present_in (key : string) (df : DataFrame) : list Row :=
  filter (fun row => notna (get row key) = true) df.

(** The regular expressions of the formats of [parse_date], in parts. *)
Definition day_month_re : list Strptime.item :=
  [Strptime.Grp Strptime.FDay Strptime.d_alts; Strptime.Chr "/";
   Strptime.Grp Strptime.FMonth Strptime.m_alts; Strptime.Chr "/"].

Definition month_day_slash_re : list Strptime.item :=
  [Strptime.Grp Strptime.FMonth Strptime.m_alts; Strptime.Chr "/";
   Strptime.Grp Strptime.FDay Strptime.d_alts; Strptime.Chr "/"].

Definition year_re : list Strptime.item :=
  [Strptime.Grp Strptime.FYear Strptime.Y_alts].

(** A date written as day/month/year and as month/day/year, two digits
    for day and month and four for the year. *)
Definition dmy (y m d : Z) : string :=
  Strptime.pad 2 d +:+ "/" +:+ Strptime.pad 2 m +:+ "/" +:+ Strptime.pad 4 y.

Definition mdy (y m d : Z) : string :=
  Strptime.pad 2 m +:+ "/" +:+ Strptime.pad 2 d +:+ "/" +:+ Strptime.pad 4 y.

(** [sep.join(l)] for a one-character separator. *)
Fixpoint join (sep : ascii) (l : list string) : string :=
  match l with
  | [] => EmptyString
  | [x] => x
  | x :: l' => x +:+ String sep (join sep l')
  end.

(** [c in s] *)
Fixpoint contains (c : ascii) (s : string) : bool :=
  match s with
  | EmptyString => false
  | String c' s' => Ascii.eqb c c' || contains c s'
  end.

(** [s.count(c)] *)
Fixpoint count_char (c : ascii) (s : string) : nat :=
  match s with
  | EmptyString => O
  | String c' s' => ((if Ascii.eqb c c' then 1 else 0) + count_char c s')%nat
  end.

(** The predicates of the Dublin Core graph and of the DCAT graph. *)
Definition dublin_core_predicates : list term :=
  [DCT "title"; DCT "description"; DCT "issued"; DCT "modified"; DCT "created";
   DCT "publisher"; DCT "accrualPeriodicity"; DCT "subject"; DCAT "landingPage"].

Definition dcat_predicates : list term :=
  [RDF_type; DCT "title"; DCT "description"; DCT "issued"; DCT "modified";
   DCT "publisher"; DCT "accrualPeriodicity"; DCAT "theme"; DCAT "landingPage";
   DCAT "distribution"; DCAT "accessURL"; DCAT "downloadURL"; DCT "format";
   DCAT "mediaType"; DCAT "byteSize"].

(** The rows have a present alias, the default of a missing key included. *)
Definition all_aliased (df : DataFrame) : Prop :=
  Forall (fun row => notna (row_get row "node_alias" (VStr "")) = true) df.

(** What [str.strip] and [str.lower] leave: a text of white space only,
    a text with no white space at either end, a text with no capital
    letter. *)
Fixpoint all_space (s : string) : bool :=
  match s with
  | EmptyString => true
  | String c s' => PyStr.is_space c && all_space s'
  end.

Fixpoint last_char (s : string) (default : ascii) : ascii :=
  match s with
  | EmptyString => default
  | String c s' => last_char s' c
  end.

Definition trimmed (s : string) : bool :=
  match s with
  | EmptyString => true
  | String c s' => negb (PyStr.is_space c) && negb (PyStr.is_space (last_char s' c))
  end.

Fixpoint no_upper (s : string) : bool :=
  match s with
  | EmptyString => true
  | String c s' => negb (PyStr.is_upper c) && no_upper s'
  end.
Lemma elem_of_graph_add (x t : triple) (g : Graph) :
  x ∈ graph_add t g ↔ x ∈ g ∨ x = t.
Proof.
  unfold graph_add. case_decide as Hin.
  - split; [by left | intros [?| ->]; done].
  - rewrite elem_of_app, list_elem_of_singleton. done.
Qed.

Lemma elem_of_graph_union (x : triple) (ts : list triple) (g : Graph) :
  x ∈ graph_union g ts ↔ x ∈ g ∨ x ∈ ts.
Proof.
  unfold graph_union. revert g. induction ts as [|t ts IH]; intros g; simpl.
  - rewrite elem_of_nil. tauto.
  - rewrite IH, elem_of_graph_add, elem_of_cons. tauto.
Qed.

Lemma NoDup_graph_add (t : triple) (g : Graph) : NoDup g → NoDup (graph_add t g).
Proof.
  intros Hg. unfold graph_add. case_decide as Hin; [done|].
  apply NoDup_app. split_and!; [done | | apply NoDup_singleton].
  intros x Hx ->%list_elem_of_singleton. done.
Qed.

Lemma NoDup_graph_union (ts : list triple) (g : Graph) :
  NoDup g → NoDup (graph_union g ts).
Proof.
  unfold graph_union. revert g. induction ts as [|t ts IH]; intros g Hg; simpl; [done|].
  apply IH, NoDup_graph_add, Hg.
Qed.

Lemma graph_union_app (g : Graph) (ts ts' : list triple) :
  graph_union g (ts ++ ts') = graph_union (graph_union g ts) ts'.
Proof. unfold graph_union. apply foldl_app. Qed.

Section StatementRules.
Context {R : Type}.
Implicit Types (a b : stmt R) (st : state R).

Lemma adds_skip : adds (R:=R) skip [].
Proof. done. Qed.

Lemma adds_g_add t : adds (R:=R) (g_add t) [t].
Proof. done. Qed.

Lemma adds_data_append (r : R) : adds (data_append r) [].
Proof. done. Qed.

Lemma adds_seq a b ts ts' : adds a ts → adds b ts' → adds (seq a b) (ts ++ ts').
Proof.
  intros Ha Hb st. unfold seq. by rewrite Hb, Ha, graph_union_app.
Qed.

Lemma adds_when (c : bool) a ts : adds a ts → adds (when c a) (if c then ts else []).
Proof. intros Ha st. destruct c; [apply Ha | done]. Qed.

Lemma adds_if (c : bool) a b ts ts' :
  adds a ts → adds b ts' → adds (if c then a else b) (if c then ts else ts').
Proof. by destruct c. Qed.

Lemma adds_for_each {A} (l : list A) (f : A → triple) :
  adds (R:=R) (for_each l (fun x => g_add (f x))) (f <$> l).
Proof.
  induction l as [|x l IH]; [done|].
  change (adds (R:=R) (seq (g_add (f x)) (for_each l (fun x => g_add (f x))))
            ([f x] ++ (f <$> l))).
  apply adds_seq; [apply adds_g_add | apply IH].
Qed.

Lemma adds_option {A} (o : option A) (f : A → stmt R) (g : A → list triple) :
  (∀ x, adds (f x) (g x)) →
  adds (match o with Some x => f x | None => skip end)
       (match o with Some x => g x | None => [] end).
Proof. intros Hf. destruct o; [apply Hf | apply adds_skip]. Qed.

Lemma adds_ext a ts ts' : adds a ts → ts = ts' → adds a ts'.
Proof. by intros ? <-. Qed.

Lemma appends_skip : appends (R:=R) skip [].
Proof. intros st. by rewrite app_nil_r. Qed.

Lemma appends_g_add t : appends (R:=R) (g_add t) [].
Proof. intros st. simpl. by rewrite app_nil_r. Qed.

Lemma appends_data_append (r : R) : appends (data_append r) [r].
Proof. done. Qed.

Lemma appends_seq a b rs rs' :
  appends a rs → appends b rs' → appends (seq a b) (rs ++ rs').
Proof.
  intros Ha Hb st. unfold seq. by rewrite Hb, Ha, (assoc_L (++)).
Qed.

Lemma appends_when (c : bool) a rs :
  appends a rs → appends (when c a) (if c then rs else []).
Proof. intros Ha st. destruct c; [apply Ha | apply appends_skip]. Qed.

Lemma appends_when_nil (c : bool) a : appends a [] → appends (when c a) [].
Proof. intros Ha st. destruct c; [apply Ha | apply appends_skip]. Qed.

Lemma appends_if_nil (c : bool) a b :
  appends a [] → appends b [] → appends (if c then a else b) [].
Proof. by destruct c. Qed.

Lemma appends_for_each_nil {A} (l : list A) (f : A → stmt R) :
  (∀ x, appends (f x) []) → appends (for_each l f) [].
Proof.
  intros Hf. induction l as [|x l IH]; [apply appends_skip|].
  simpl. apply (appends_seq _ _ [] []); [apply Hf | apply IH].
Qed.

Lemma appends_option_nil {A} (o : option A) (f : A → stmt R) :
  (∀ x, appends (f x) []) →
  appends (match o with Some x => f x | None => skip end) [].
Proof. intros Hf. destruct o; [apply Hf | apply appends_skip]. Qed.

Lemma appends_ext a rs rs' : appends a rs → rs = rs' → appends a rs'.
Proof. by intros ? <-. Qed.

Lemma adds_iterrows_from (body : nat → Row → stmt R) f df idx :
  (∀ i row, adds (body i row) (f i row)) →
  adds (iterrows_from idx df body) (rows_from idx df f).
Proof.
  intros Hb. revert idx. induction df as [|row df IH]; intros idx; [done|].
  simpl. apply adds_seq; [apply Hb | apply IH].
Qed.

Lemma appends_iterrows_from (body : nat → Row → stmt R) f df idx :
  (∀ i row, appends (body i row) (f i row)) →
  appends (iterrows_from idx df body) (rows_from idx df f).
Proof.
  intros Hb. revert idx. induction df as [|row df IH]; intros idx;
    [apply appends_skip|].
  simpl. apply appends_seq; [apply Hb | apply IH].
Qed.
Lemma yields_lift a ts rs : adds a ts → appends a rs → yields (lift a) true ts rs.
Proof.
  intros Ha Hr st. unfold lift. f_equal.
  rewrite (surjective_pairing (a st)). by rewrite Ha, Hr.
Qed.

Lemma yields_seq (a b : try_stmt R) ok ok' ts ts' rs rs' :
  yields a ok ts rs → yields b ok' ts' rs' →
  yields (try_seq a b) (ok && ok') (ts ++ ts') (rs ++ rs').
Proof.
  intros Ha Hb st. unfold try_seq. rewrite Ha. destruct ok; [|done].
  rewrite Hb. destruct ok'; [|done]. simpl.
  by rewrite graph_union_app, (assoc_L (++)).
Qed.

Lemma yields_when (c : bool) (a : try_stmt R) ok ts rs :
  yields a ok ts rs →
  yields (try_when c a) (if c then ok else true)
         (if c then ts else []) (if c then rs else []).
Proof.
  intros Ha st. destruct c; [apply Ha|].
  unfold try_when, lift, skip. simpl. by rewrite app_nil_r, <- surjective_pairing.
Qed.

Lemma yields_eval {A} (o : option A) (k : A → stmt R) (f : A → list triple) :
  (∀ x, adds (k x) (f x)) → (∀ x, appends (k x) []) →
  yields (eval o k) (bool_decide (is_Some o))
         (match o with Some x => f x | None => [] end) [].
Proof.
  intros Hk Hr st. unfold eval. destruct o as [x|].
  - rewrite bool_decide_eq_true_2 by done. f_equal.
    rewrite (surjective_pairing (k x st)). by rewrite Hk, Hr.
  - rewrite bool_decide_eq_false_2; [done|]. by intros [? ?].
Qed.

Lemma yields_ext (a : try_stmt R) ok ok' ts ts' rs rs' :
  yields a ok ts rs → ok = ok' → ts = ts' → rs = rs' → yields a ok' ts' rs'.
Proof. by intros ? <- <- <-. Qed.

Lemma yields_iterrows_from (body : nat → Row → try_stmt R) ok f g df idx :
  (∀ i row, yields (body i row) (ok row) (f i row) (g i row)) →
  yields (try_iterrows_from idx df body) (forallb ok df)
         (rows_from idx df f) (rows_from idx df g).
Proof.
  intros Hb. revert idx. induction df as [|row df IH]; intros idx.
  - intros st. simpl. unfold lift, skip. by rewrite app_nil_r, <- surjective_pairing.
  - simpl. apply yields_seq; [apply Hb | apply IH].
Qed.
End StatementRules.

Lemma elem_of_rows_from {B} (f : nat → Row → list B) (df : DataFrame) idx (x : B) :
  x ∈ rows_from idx df f ↔ ∃ i row, df !! i = Some row ∧ x ∈ f (idx + i)%nat row.
Proof.
  revert idx. induction df as [|r df IH]; intros idx; simpl.
  - rewrite elem_of_nil. split; [done|]. intros (i & row & Hi & _). done.
  - rewrite elem_of_app, IH. split.
    + intros [Hx | (i & row & Hi & Hx)].
      * exists 0%nat, r. by rewrite Nat.add_0_r.
      * exists (S i), row. by rewrite Nat.add_succ_r.
    + intros ([|i] & row & Hi & Hx); simpl in Hi.
      * left. injection Hi as ->. by rewrite Nat.add_0_r in Hx.
      * right. exists i, row. by rewrite Nat.add_succ_r in Hx.
Qed.
Ltac solve_adds :=
  repeat lazymatch goal with
  | |- adds skip _ => apply adds_skip
  | |- adds (g_add _) _ => apply adds_g_add
  | |- adds (data_append _) _ => apply adds_data_append
  | |- adds (for_each _ _) _ => apply adds_for_each
  | |- adds (seq _ _) _ => eapply adds_seq
  | |- adds (when _ _) _ => eapply adds_when
  | |- adds (match _ with Some _ => _ | None => _ end) _ =>
      eapply adds_option; intros
  | |- adds (if _ then _ else _) _ => eapply adds_if
  end.

Ltac solve_appends :=
  repeat lazymatch goal with
  | |- appends skip _ => apply appends_skip
  | |- appends (g_add _) _ => apply appends_g_add
  | |- appends (data_append _) _ => apply appends_data_append
  | |- appends (for_each _ _) _ => apply appends_for_each_nil; intros
  | |- appends (seq _ _) [] => apply (appends_seq _ _ [] [])
  | |- appends (seq _ _) _ => eapply appends_seq
  | |- appends (when _ _) _ =>
      first [ solve [apply appends_when_nil; solve_appends]
            | eapply appends_when ]
  | |- appends (match _ with Some _ => _ | None => _ end) _ =>
      apply appends_option_nil; intros
  | |- appends (if _ then _ else _) _ => apply appends_if_nil
  end.

Ltac solve_yields :=
  repeat lazymatch goal with
  | |- yields (try_seq _ _) _ _ _ => eapply yields_seq
  | |- yields (try_when _ _) _ _ _ => eapply yields_when
  | |- yields (lift _) _ _ _ => eapply yields_lift; [solve_adds | solve_appends]
  | |- yields (eval _ _) _ _ _ =>
      eapply yields_eval; intros; [solve_adds | solve_appends]
  end.

Ltac unfold_views :=
  unfold dublin_core_triples, dcat_triples, dcat_records, distribution_triples,
    url_triple, format_triples, size_triple, title_triple, description_triple,
    date_triple, publisher_triple, frequency_triple, sector_triples, landing_triple,
    dublin_core_record, api_record, file_record, dist_uri, dataset_uri;
  cbv zeta.

(** Splits the membership [H] of a triple in a row's view into the [g.add]
    call it comes from. *)
Ltac triple_cases H :=
  unfold dublin_core_triples, dcat_triples in H; cbv zeta in H;
  rewrite ?elem_of_app in H; destruct_or! H;
  unfold distribution_triples, url_triple, format_triples, size_triple, title_triple,
    description_triple, date_triple, publisher_triple, frequency_triple,
    sector_triples, landing_triple in H;
  cbv zeta in H;
  repeat case_match; rewrite ?elem_of_app in H; destruct_or? H;
  repeat case_match;
  try (apply elem_of_nil in H; destruct H);
  try (apply list_elem_of_fmap in H; destruct H as (? & H & ?));
  repeat (apply elem_of_cons in H; destruct H as [H|H]);
  try (apply elem_of_nil in H; destruct H).

Section Views.
Context `{Rdflib}.

Lemma dublin_core_row_adds idx row :
  adds (dublin_core_row idx row) (dublin_core_triples idx row).
Proof.
  unfold dublin_core_row. cbv zeta.
  eapply adds_ext; [solve_adds|].
  unfold_views. rewrite app_nil_r. reflexivity.
Qed.

Lemma dublin_core_row_appends idx row :
  appends (dublin_core_row idx row) [dublin_core_record idx row].
Proof.
  unfold dublin_core_row. cbv zeta.
  eapply appends_ext; [solve_appends|]. reflexivity.
Qed.

Lemma dcat_row_yields idx row :
  yields (dcat_row idx row) (row_ok row) (dcat_triples idx row) (dcat_records idx row).
Proof.
  unfold dcat_row. cbv zeta.
  eapply yields_ext; [solve_yields|..].
  - unfold row_ok, url_ok.
    destruct (notna (get row "datafile_url")), (notna (get row "datafile"));
      cbn [andb]; rewrite ?andb_true_r; reflexivity.
  - unfold_views. rewrite !app_nil_r, <- !(assoc_L (++)). reflexivity.
  - reflexivity.
Qed.



(** ** The builders in terms of the rows' views *)

Lemma dublin_core_graph_triples df :
  (create_dublin_core_graph df).1 = graph_union [] (rows_from 0 df dublin_core_triples).
Proof. apply (adds_iterrows_from _ _ df 0 dublin_core_row_adds). Qed.

Lemma dublin_core_graph_records df :
  (create_dublin_core_graph df).2
  = rows_from 0 df (fun i row => [dublin_core_record i row]).
Proof.
  apply (appends_iterrows_from _ (fun i row => [dublin_core_record i row])
           df 0 dublin_core_row_appends).
Qed.

Lemma create_dcat_graph_eq df :
  create_dcat_graph df
  = if forallb row_ok df
    then Some (graph_union [] (rows_from 0 df dcat_triples), rows_from 0 df dcat_records)
    else None.
Proof.
  apply (yields_iterrows_from dcat_row row_ok dcat_triples dcat_records df 0
           dcat_row_yields ([], [])).
Qed.

(** The DCAT builder returns exactly when no row has a present URL cell
    that is not a text. *)
Lemma create_dcat_graph_Some df g rs :
  create_dcat_graph df = Some (g, rs) →
  forallb row_ok df = true
  ∧ g = graph_union [] (rows_from 0 df dcat_triples)
  ∧ rs = rows_from 0 df dcat_records.
Proof.
  rewrite create_dcat_graph_eq. destruct (forallb row_ok df); [|done].
  by intros [= <- <-].
Qed.

Lemma elem_of_dublin_core_graph df x :
  x ∈ (create_dublin_core_graph df).1
  ↔ ∃ i row, df !! i = Some row ∧ x ∈ dublin_core_triples i row.
Proof.
  rewrite dublin_core_graph_triples, elem_of_graph_union, elem_of_rows_from.
  rewrite elem_of_nil. simpl. tauto.
Qed.

Lemma elem_of_dcat_graph df g rs x :
  create_dcat_graph df = Some (g, rs) →
  x ∈ g ↔ ∃ i row, df !! i = Some row ∧ x ∈ dcat_triples i row.
Proof.
  intros (_ & -> & _)%create_dcat_graph_Some.
  rewrite elem_of_graph_union, elem_of_rows_from.
  rewrite elem_of_nil. simpl. tauto.
Qed.

Lemma NoDup_dcat_graph df g rs : create_dcat_graph df = Some (g, rs) → NoDup g.
Proof.
  intros (_ & -> & _)%create_dcat_graph_Some. apply NoDup_graph_union, NoDup_nil_2.
Qed.

Lemma row_ok_lookup df i row :
  forallb row_ok df = true → df !! i = Some row → row_ok row = true.
Proof.
  rewrite forallb_forall. intros Hdf Hi. apply Hdf, list_elem_of_In.
  by apply list_elem_of_lookup_2 in Hi.
Qed.
End Views.


Lemma rows_from_singleton_lookup {B} (f : nat → Row → B) (df : DataFrame) idx i :
  rows_from idx df (fun j row => [f j row]) !! i = f (idx + i)%nat <$> df !! i.
Proof.
  revert idx i. induction df as [|r df IH]; intros idx i; simpl; [done|].
  destruct i as [|i]; simpl.
  - by rewrite Nat.add_0_r.
  - by rewrite IH, Nat.add_succ_r.
Qed.

(** [row[key]] under its guard: the key exists and holds what [row.get]
    returned. *)
Lemma item_guarded (row : Row) (key : string) :
  notna (get row key) = true → row !! key = Some (item row key).
Proof.
  unfold item, get, row_get. destruct (row !! key) as [v|]; simpl; [done|].
  discriminate.
Qed.

Lemma string_app_inj (s a b : string) : s +:+ a = s +:+ b → a = b.
Proof. induction s as [|c s IH]; simpl; [done|]. intros [=]. auto. Qed.

(** A builder run on a table with one more row is the loop body run on what
    the builder gives for the table. *)
Lemma iterrows_from_snoc {R} (body : nat → Row → stmt R) df row idx st :
  iterrows_from idx (df ++ [row]) body st
  = body (idx + length df)%nat row (iterrows_from idx df body st).
Proof.
  revert idx st. induction df as [|r df IH]; intros idx st; simpl.
  - by rewrite Nat.add_0_r.
  - unfold seq. by rewrite IH, Nat.add_succ_r.
Qed.

Lemma try_iterrows_from_snoc {R} (body : nat → Row → try_stmt R) df row idx st :
  try_iterrows_from idx (df ++ [row]) body st
  = match try_iterrows_from idx df body st with
    | Some st' => body (idx + length df)%nat row st'
    | None => None
    end.
Proof.
  revert idx st. induction df as [|r df IH]; intros idx st; simpl.
  - unfold try_seq, lift, skip. rewrite Nat.add_0_r. by destruct (body idx row st).
  - unfold try_seq. destruct (body idx r st) as [st'|]; [|done].
    by rewrite IH, Nat.add_succ_r.
Qed.

Lemma create_dublin_core_graph_snoc `{R : Rdflib} df row :
  create_dublin_core_graph (df ++ [row])
  = dublin_core_row (length df) row (create_dublin_core_graph df).
Proof. apply (iterrows_from_snoc dublin_core_row df row 0). Qed.

Lemma create_dcat_graph_snoc `{R : Rdflib} df row :
  create_dcat_graph (df ++ [row])
  = match create_dcat_graph df with
    | Some st => dcat_row (length df) row st
    | None => None
    end.
Proof. apply (try_iterrows_from_snoc dcat_row df row 0). Qed.

(** ** Lower-casing and stripping *)

Lemma lower_char_idemp c : PyStr.lower_char (PyStr.lower_char c) = PyStr.lower_char c.
Proof. by destruct c as [[] [] [] [] [] [] [] []]. Qed.

Lemma is_space_lower_char c : PyStr.is_space (PyStr.lower_char c) = PyStr.is_space c.
Proof. by destruct c as [[] [] [] [] [] [] [] []]. Qed.

Lemma lower_idemp s : PyStr.lower (PyStr.lower s) = PyStr.lower s.
Proof. induction s as [|c s IH]; simpl; [done|]. by rewrite lower_char_idemp, IH. Qed.

Lemma lower_lstrip s :
  PyStr.lower (PyStr.lstrip_with PyStr.is_space s)
  = PyStr.lstrip_with PyStr.is_space (PyStr.lower s).
Proof.
  induction s as [|c s IH]; simpl; [done|].
  rewrite is_space_lower_char. by destruct (PyStr.is_space c).
Qed.

Lemma lower_rstrip s :
  PyStr.lower (PyStr.rstrip_with PyStr.is_space s)
  = PyStr.rstrip_with PyStr.is_space (PyStr.lower s).
Proof.
  induction s as [|c s IH]; simpl; [done|].
  rewrite <- IH, is_space_lower_char.
  destruct (PyStr.rstrip_with PyStr.is_space s); simpl; [|done].
  by destruct (PyStr.is_space c).
Qed.

Lemma rstrip_idemp ws s :
  PyStr.rstrip_with ws (PyStr.rstrip_with ws s) = PyStr.rstrip_with ws s.
Proof.
  induction s as [|c s IH]; simpl; [done|].
  destruct (PyStr.rstrip_with ws s) as [|c' r] eqn:Hr.
  - destruct (ws c) eqn:Hc; simpl; [done|]. by rewrite Hc.
  - simpl in *. by rewrite IH.
Qed.

(** What [lstrip] returns is empty or starts with a character it keeps. *)
Lemma lstrip_head ws s :
  match PyStr.lstrip_with ws s with
  | EmptyString => True
  | String c _ => ws c = false
  end.
Proof.
  induction s as [|c s IH]; simpl; [done|]. by destruct (ws c) eqn:Hc.
Qed.

Lemma lstrip_rstrip_kept ws s :
  match s with EmptyString => True | String c _ => ws c = false end →
  PyStr.lstrip_with ws (PyStr.rstrip_with ws s) = PyStr.rstrip_with ws s.
Proof.
  destruct s as [|c s]; simpl; [done|]. intros Hc.
  destruct (PyStr.rstrip_with ws s); rewrite ?Hc; simpl; by rewrite Hc.
Qed.

Lemma strip_with_idemp ws s :
  PyStr.strip_with ws (PyStr.strip_with ws s) = PyStr.strip_with ws s.
Proof.
  unfold PyStr.strip_with.
  rewrite (lstrip_rstrip_kept ws _ (lstrip_head ws s)). apply rstrip_idemp.
Qed.

Lemma strip_lower_idemp s :
  PyStr.strip (PyStr.lower (PyStr.strip (PyStr.lower s))) = PyStr.strip (PyStr.lower s).
Proof.
  unfold PyStr.strip at 2. unfold PyStr.strip_with.
  rewrite lower_rstrip, lower_lstrip, lower_idemp.
  apply (strip_with_idemp PyStr.is_space).
Qed.

Lemma lower_app s t : PyStr.lower (s +:+ t) = PyStr.lower s +:+ PyStr.lower t.
Proof. induction s as [|c s IH]; simpl; [done|]. by rewrite IH. Qed.

Lemma lower_length s : String.length (PyStr.lower s) = String.length s.
Proof. induction s as [|c s IH]; simpl; [done|]. by rewrite IH. Qed.

Lemma lower_no_upper s : no_upper s = true → PyStr.lower s = s.
Proof.
  induction s as [|c s IH]; simpl; [done|].
  intros [Hc Hs]%andb_prop. unfold PyStr.lower_char.
  apply negb_true_iff in Hc. by rewrite Hc, IH.
Qed.

Lemma no_upper_lower s : no_upper (PyStr.lower s) = true.
Proof.
  induction s as [|c s IH]; simpl; [done|]. rewrite IH, andb_true_r.
  by destruct c as [[] [] [] [] [] [] [] []].
Qed.

Lemma all_space_lower s : all_space (PyStr.lower s) = all_space s.
Proof.
  induction s as [|c s IH]; simpl; [done|]. by rewrite is_space_lower_char, IH.
Qed.

Lemma lstrip_all_space s :
  all_space s = true → PyStr.lstrip_with PyStr.is_space s = "".
Proof.
  induction s as [|c s IH]; simpl; [done|]. by intros [-> ?]%andb_prop; auto.
Qed.

Lemma rstrip_all_space s :
  all_space s = true → PyStr.rstrip_with PyStr.is_space s = "".
Proof.
  induction s as [|c s IH]; simpl; [done|]. intros [Hc Hs]%andb_prop.
  by rewrite (IH Hs), Hc.
Qed.

Lemma lstrip_app_space l s :
  all_space l = true →
  PyStr.lstrip_with PyStr.is_space (l +:+ s) = PyStr.lstrip_with PyStr.is_space s.
Proof.
  induction l as [|c l IH]; simpl; [done|]. intros [-> Hl]%andb_prop. auto.
Qed.

Lemma rstrip_app_space s r :
  all_space r = true →
  PyStr.rstrip_with PyStr.is_space (s +:+ r) = PyStr.rstrip_with PyStr.is_space s.
Proof.
  intros Hr. induction s as [|c s IH]; simpl; [by apply rstrip_all_space|].
  by rewrite IH.
Qed.

(** White space around a text does not change what [strip] gives. *)
Lemma strip_app_space l s r :
  all_space l = true → all_space r = true →
  PyStr.strip (l +:+ s +:+ r) = PyStr.strip s.
Proof.
  intros Hl Hr. unfold PyStr.strip, PyStr.strip_with.
  rewrite (lstrip_app_space l _ Hl). clear l Hl.
  induction s as [|c s IH].
  - change ("" +:+ r) with r. by rewrite (lstrip_all_space r Hr).
  - change (String c s +:+ r) with (String c (s +:+ r)).
    cbn [PyStr.lstrip_with]. destruct (PyStr.is_space c); [exact IH|].
    change (String c (s +:+ r)) with (String c s +:+ r).
    by apply rstrip_app_space.
Qed.

Lemma lstrip_split s :
  ∃ l, s = l +:+ PyStr.lstrip_with PyStr.is_space s ∧ all_space l = true.
Proof.
  induction s as [|c s (l & IH & Hl)]; simpl; [by exists ""|].
  destruct (PyStr.is_space c) eqn:Hc; [|by exists ""].
  exists (String c l). split; [exact (f_equal (String c) IH)|].
  simpl. by rewrite Hc.
Qed.

Lemma rstrip_split s :
  ∃ r, s = PyStr.rstrip_with PyStr.is_space s +:+ r ∧ all_space r = true.
Proof.
  induction s as [|c s (r & IH & Hr)]; simpl; [by exists ""|].
  destruct (PyStr.rstrip_with PyStr.is_space s) as [|c' t] eqn:Ht.
  - change ("" +:+ r) with r in IH. subst r. destruct (PyStr.is_space c) eqn:Hc.
    + exists (String c s). split; [done|]. simpl. by rewrite Hc.
    + by exists s.
  - exists r. split; [exact (f_equal (String c) IH)|done].
Qed.

Lemma rstrip_last s :
  match PyStr.rstrip_with PyStr.is_space s with
  | EmptyString => True
  | String c' t => PyStr.is_space (last_char t c') = false
  end.
Proof.
  induction s as [|a s IH]; simpl; [done|].
  destruct (PyStr.rstrip_with PyStr.is_space s) as [|c' t]; [|exact IH].
  by destruct (PyStr.is_space a) eqn:Ha.
Qed.

Lemma rstrip_keeps_head c s :
  PyStr.is_space c = false →
  ∃ t, PyStr.rstrip_with PyStr.is_space (String c s) = String c t.
Proof.
  intros Hc. simpl. destruct (PyStr.rstrip_with PyStr.is_space s); rewrite ?Hc; eauto.
Qed.

(** What [strip] gives has no white space at either end. *)
Lemma strip_trimmed s : trimmed (PyStr.strip s) = true.
Proof.
  unfold PyStr.strip, PyStr.strip_with.
  pose proof (lstrip_head PyStr.is_space s) as Hh.
  destruct (PyStr.lstrip_with PyStr.is_space s) as [|c u] eqn:Hu; [done|].
  destruct (rstrip_keeps_head c u Hh) as (t & Ht).
  pose proof (rstrip_last (String c u)) as Hl. rewrite Ht in Hl |- *.
  unfold trimmed. by rewrite Hh, Hl.
Qed.

(** [strip] takes white space off both ends and nothing else. *)
Lemma strip_split s :
  ∃ l r, s = l +:+ PyStr.strip s +:+ r ∧ all_space l = true ∧ all_space r = true.
Proof.
  destruct (lstrip_split s) as (l & Hs & Hl).
  destruct (rstrip_split (PyStr.lstrip_with PyStr.is_space s)) as (r & Hu & Hr).
  exists l, r. split; [|done]. unfold PyStr.strip, PyStr.strip_with.
  by rewrite <- Hu.
Qed.


(** ** Dates written and read again *)

Lemma year_ok_all y : 1000 ≤ y ≤ 9999 → year_ok y = true.
Proof.
  intros Hy.
  assert (H : forallb year_ok (seqZ 1000 9000) = true) by (vm_compute; reflexivity).
  rewrite forallb_forall in H. apply H, list_elem_of_In, elem_of_seqZ. lia.
Qed.

Lemma padded_year_ok_all y : 1 ≤ y ≤ 9999 → padded_year_ok y = true.
Proof.
  intros Hy.
  assert (H : forallb padded_year_ok (seqZ 1 9999) = true)
    by (vm_compute; reflexivity).
  rewrite forallb_forall in H. apply H, list_elem_of_In, elem_of_seqZ. lia.
Qed.

Lemma short_year_ok_all y : 1 ≤ y ≤ 999 → short_year_ok y = true.
Proof.
  intros Hy.
  assert (H : forallb short_year_ok (seqZ 1 999) = true) by (vm_compute; reflexivity).
  rewrite forallb_forall in H. apply H, list_elem_of_In, elem_of_seqZ. lia.
Qed.

Lemma month_day_ok_all m d : 1 ≤ m ≤ 12 → 1 ≤ d ≤ 31 → month_day_ok m d = true.
Proof.
  intros Hm Hd.
  assert (H : forallb (fun m => forallb (month_day_ok m) (seqZ 1 31)) (seqZ 1 12) = true)
    by (vm_compute; reflexivity).
  rewrite forallb_forall in H.
  specialize (H m). rewrite forallb_forall in H.
  apply H; apply list_elem_of_In, elem_of_seqZ; lia.
Qed.

Lemma make_date_Some y m d dt :
  Strptime.make_date y m d = Some dt →
  dt = Strptime.Date y m d ∧ 1 ≤ y ≤ 9999 ∧ 1 ≤ m ≤ 12 ∧ 1 ≤ d ≤ 31.
Proof.
  unfold Strptime.make_date. case_match eqn:H; [|done]. intros [= <-].
  repeat (apply andb_prop in H as [H ?]).
  assert (Strptime.days_in_month y m ≤ 31)
    by (unfold Strptime.days_in_month; repeat case_match; lia).
  split; [done|]. lia.
Qed.

Lemma strptime_make_date s fmt dt :
  Strptime.strptime s fmt = Some dt → ∃ y m d, Strptime.make_date y m d = Some dt.
Proof.
  unfold Strptime.strptime. intros H.
  destruct (Strptime.compile fmt) as [re|]; [|done]. simpl in H.
  destruct (Strptime.regex_match re s) as [[caps rest]|]; [|done]. simpl in H.
  destruct rest; [|done].
  destruct (Strptime.group_int Strptime.FYear caps 1900) as [y|]; [|done].
  destruct (Strptime.group_int Strptime.FMonth caps 1) as [m|]; [|done].
  destruct (Strptime.group_int Strptime.FDay caps 1) as [d|]; [|done].
  simpl in H. eauto.
Qed.

Lemma strptime_strftime_iso y m d :
  1000 ≤ y ≤ 9999 → 1 ≤ m ≤ 12 → 1 ≤ d ≤ 31 →
  Strptime.strptime (Strptime.strftime_iso (Strptime.Date y m d)) "%Y-%m-%d"
  = Strptime.make_date y m d.
Proof.
  intros Hy Hm Hd.
  pose proof (year_ok_all y Hy) as Hyear.
  pose proof (month_day_ok_all m d Hm Hd) as Hmd.
  unfold year_ok in Hyear. unfold month_day_ok in Hmd.
  apply andb_prop in Hmd as [[Hre Him]%andb_prop Hid].
  apply bool_decide_eq_true in Hre, Him, Hid.
  unfold Strptime.strftime_iso. cbn [Strptime.year Strptime.month Strptime.day].
  destruct (pretty y) as [|a [|b [|c [|e [|]]]]]; try discriminate.
  apply andb_prop in Hyear as [Hyear Hiy]. apply andb_prop in Hyear as [Hyear He].
  apply andb_prop in Hyear as [Hyear Hc]. apply andb_prop in Hyear as [Ha Hb].
  apply bool_decide_eq_true in Hiy.
  unfold Strptime.strptime.
  change (Strptime.compile "%Y-%m-%d")
    with (Some (Strptime.Grp Strptime.FYear Strptime.Y_alts :: month_day_re)).
  cbn [mbind option_bind].
  change (String a (String b (String c (String e ""))) +:+ "-" +:+
          Strptime.pad 2 m +:+ "-" +:+ Strptime.pad 2 d)
    with (String a (String b (String c (String e
            ("-" +:+ Strptime.pad 2 m +:+ "-" +:+ Strptime.pad 2 d))))).
  cbn [Strptime.regex_match Strptime.Y_alts Strptime.match_alt].
  rewrite Ha, Hb, Hc, He, Hre. cbn [mbind option_bind].
  unfold Strptime.group_int.
  cbn [Strptime.capture]. repeat (case_decide; try done).
  rewrite Hiy, Him, Hid. done.
Qed.


Lemma regex_match_app_None re1 re2 s :
  Strptime.regex_match re1 s = None → Strptime.regex_match (re1 ++ re2) s = None.
Proof.
  revert s. induction re1 as [|[c|f alts] re1 IH]; intros s; simpl; [done| |].
  - destruct s as [|c' s]; [done|]. destruct (Ascii.eqb c c'); [apply IH|done].
  - induction alts as [|alt alts IHalts]; [done|].
    destruct (Strptime.match_alt alt s) as [[m r]|]; [|exact IHalts].
    destruct (Strptime.regex_match re1 r) as [[caps rest]|] eqn:Hr; [done|].
    rewrite (IH r Hr). exact IHalts.
Qed.

Lemma regex_match_app_Some re1 re2 s caps1 t caps2 r :
  Strptime.regex_match re1 s = Some (caps1, t) →
  Strptime.regex_match re2 t = Some (caps2, r) →
  Strptime.regex_match (re1 ++ re2) s = Some (caps1 ++ caps2, r).
Proof.
  revert s caps1. induction re1 as [|[c|f alts] re1 IH]; intros s caps1; simpl.
  - by intros [= <- <-].
  - destruct s as [|c' s]; [done|]. destruct (Ascii.eqb c c'); [apply IH|done].
  - intros H1 H2. induction alts as [|alt alts IHalts]; [done|].
    destruct (Strptime.match_alt alt s) as [[m r0]|]; [|by apply IHalts].
    destruct (Strptime.regex_match re1 r0) as [[caps rest]|] eqn:Hr.
    + injection H1 as <- <-. by rewrite (IH r0 caps Hr H2).
    + rewrite (regex_match_app_None re1 re2 r0 Hr). by apply IHalts.
Qed.

Lemma digit_not_slash c : PyStr.is_digit c = true → Ascii.eqb "/" c = false.
Proof. by destruct c as [[] [] [] [] [] [] [] []]. Qed.

Lemma strptime_from_match format re s caps y m d :
  Strptime.compile format = Some re →
  Strptime.regex_match re s = Some (caps, "") →
  Strptime.group_int Strptime.FYear caps 1900 = Some y →
  Strptime.group_int Strptime.FMonth caps 1 = Some m →
  Strptime.group_int Strptime.FDay caps 1 = Some d →
  Strptime.strptime s format = Strptime.make_date y m d.
Proof.
  intros Hc Hre Hy Hm Hd. unfold Strptime.strptime.
  rewrite Hc. cbn [mbind option_bind]. rewrite Hre. cbn [mbind option_bind].
  rewrite Hy. cbn [mbind option_bind]. rewrite Hm. cbn [mbind option_bind].
  by rewrite Hd.
Qed.

Lemma strptime_no_match format re s :
  Strptime.compile format = Some re →
  Strptime.regex_match re s = None →
  Strptime.strptime s format = None.
Proof.
  intros Hc Hre. unfold Strptime.strptime.
  rewrite Hc. cbn [mbind option_bind]. by rewrite Hre.
Qed.

(** A text whose second and third characters are no slash is no day and
    month with a slash after each. *)
Lemma day_month_rejects_no_slash a b c rest :
  Ascii.eqb "/" b = false → Ascii.eqb "/" c = false →
  Strptime.regex_match day_month_re (String a (String b (String c rest))) = None.
Proof.
  intros Hb Hc. unfold day_month_re, Strptime.d_alts.
  cbn [Strptime.regex_match Strptime.match_alt].
  destruct (Strptime.one "3" a), (Strptime.range "0" "1" b),
    (Strptime.range "1" "2" a), (PyStr.is_digit b), (Strptime.one "0" a),
    (Strptime.range "1" "9" b), (Strptime.range "1" "9" a), (Strptime.one " " a);
    cbv beta iota; rewrite ?Hb, ?Hc; reflexivity.
Qed.

Lemma month_day_rejects_no_slash a b c rest :
  Ascii.eqb "/" b = false → Ascii.eqb "/" c = false →
  Strptime.regex_match month_day_slash_re (String a (String b (String c rest))) = None.
Proof.
  intros Hb Hc. unfold month_day_slash_re, Strptime.m_alts.
  cbn [Strptime.regex_match Strptime.match_alt].
  destruct (Strptime.one "1" a), (Strptime.range "0" "2" b),
    (Strptime.one "0" a), (Strptime.range "1" "9" b), (Strptime.range "1" "9" a);
    cbv beta iota; rewrite ?Hb, ?Hc; reflexivity.
Qed.

Lemma day_month_rejects_digits a b c rest :
  PyStr.is_digit b = true → PyStr.is_digit c = true →
  Strptime.regex_match day_month_re (String a (String b (String c rest))) = None.
Proof. intros Hb Hc. by apply day_month_rejects_no_slash; apply digit_not_slash. Qed.

Lemma pad_2_head m :
  1 ≤ m ≤ 31 → ∃ c t, Strptime.pad 2 m = String c t ∧ PyStr.is_digit c = true.
Proof.
  intros Hm. assert (Hm' : m ∈ seqZ 1 31) by (apply elem_of_seqZ; lia).
  clear Hm. vm_compute in Hm'.
  repeat (apply elem_of_cons in Hm' as [->|Hm']); [..|by apply elem_of_nil in Hm'];
    vm_compute; eauto.
Qed.

(** A year below 1000 is written without padding, and the text is then no
    date of any of the three formats. *)
Lemma strftime_iso_short_unread y m d fmt :
  1 ≤ y ≤ 999 → 1 ≤ m ≤ 12 → 1 ≤ d ≤ 31 →
  fmt ∈ date_formats →
  Strptime.strptime (Strptime.strftime_iso (Strptime.Date y m d)) fmt = None.
Proof.
  intros Hy Hm Hd Hfmt.
  pose proof (short_year_ok_all y Hy) as Hyear. unfold short_year_ok in Hyear.
  destruct (pad_2_head m ltac:(lia)) as (cm & tm & Hpm & Hcm).
  unfold Strptime.strftime_iso. cbn [Strptime.year Strptime.month Strptime.day].
  rewrite Hpm. clear Hpm.
  change (String cm tm +:+ "-" +:+ Strptime.pad 2 d)
    with (String cm (tm +:+ "-" +:+ Strptime.pad 2 d)).
  generalize (tm +:+ "-" +:+ Strptime.pad 2 d). intros rest.
  assert (Hdash : Ascii.eqb "/" "-" = false) by reflexivity.
  unfold date_formats in Hfmt.
  assert (Hre : ∀ re1 re2, Strptime.compile fmt = Some (re1 ++ re2) →
            Strptime.regex_match re1 (pretty y +:+ "-" +:+ String cm rest) = None →
            Strptime.strptime (pretty y +:+ "-" +:+ String cm rest) fmt = None).
  { intros re1 re2 Hc Hno. apply (strptime_no_match _ (re1 ++ re2)); [done|].
    by apply regex_match_app_None. }
  destruct (pretty y) as [|a [|b [|c [|]]]]; try discriminate.
  - rename Hyear into Ha.
    change (String a "" +:+ "-" +:+ String cm rest)
      with (String a (String "-" (String cm rest))) in *.
    repeat (apply elem_of_cons in Hfmt as [->|Hfmt]); [..|by apply elem_of_nil in Hfmt].
    + apply (Hre day_month_re year_re); [reflexivity|].
      apply day_month_rejects_no_slash; [done|by apply digit_not_slash].
    + apply (Hre year_re month_day_re); [reflexivity|].
      unfold year_re, Strptime.Y_alts.
      cbn [Strptime.regex_match Strptime.match_alt]. by rewrite Ha.
    + apply (Hre month_day_slash_re year_re); [reflexivity|].
      apply month_day_rejects_no_slash; [done|by apply digit_not_slash].
  - apply andb_prop in Hyear as [Ha Hb].
    change (String a (String b "") +:+ "-" +:+ String cm rest)
      with (String a (String b (String "-" (String cm rest)))) in *.
    repeat (apply elem_of_cons in Hfmt as [->|Hfmt]); [..|by apply elem_of_nil in Hfmt].
    + apply (Hre day_month_re year_re); [reflexivity|].
      apply day_month_rejects_no_slash; [by apply digit_not_slash|done].
    + apply (Hre year_re month_day_re); [reflexivity|].
      unfold year_re, Strptime.Y_alts.
      cbn [Strptime.regex_match Strptime.match_alt]. by rewrite Ha, Hb.
    + apply (Hre month_day_slash_re year_re); [reflexivity|].
      apply month_day_rejects_no_slash; [by apply digit_not_slash|done].
  - apply andb_prop in Hyear as [Hyear Hc]. apply andb_prop in Hyear as [Ha Hb].
    change (String a (String b (String c "")) +:+ "-" +:+ String cm rest)
      with (String a (String b (String c (String "-" (String cm rest))))) in *.
    repeat (apply elem_of_cons in Hfmt as [->|Hfmt]); [..|by apply elem_of_nil in Hfmt].
    + apply (Hre day_month_re year_re); [reflexivity|].
      apply day_month_rejects_no_slash; by apply digit_not_slash.
    + apply (Hre year_re month_day_re); [reflexivity|].
      unfold year_re, Strptime.Y_alts.
      cbn [Strptime.regex_match Strptime.match_alt]. by rewrite Ha, Hb, Hc.
    + apply (Hre month_day_slash_re year_re); [reflexivity|].
      apply month_day_rejects_no_slash; by apply digit_not_slash.
Qed.

(** What [parse_date] writes for a date it read: a text that it reads as
    year-month-day again from the year 1000 on, and as no date at all
    below. *)
Lemma parse_date_strftime_iso s fmt dt :
  Strptime.strptime s fmt = Some dt →
  parse_date (VStr (Strptime.strftime_iso dt)) = Some (Strptime.strftime_iso dt).
Proof.
  intros H. pose proof H as (y & m & d & Hmk)%strptime_make_date.
  destruct (make_date_Some _ _ _ _ Hmk) as (-> & Hy & Hm & Hd).
  unfold parse_date, date_formats. cbn [isna notna negb py_str try_formats].
  destruct (decide (1000 ≤ y)) as [Hbig|Hsmall].
  - pose proof (strptime_strftime_iso y m d ltac:(lia) Hm Hd) as Hback.
    rewrite Hmk in Hback. rewrite Hback.
    assert (Hyear := year_ok_all y ltac:(lia)). unfold year_ok in Hyear.
    assert (Strptime.strptime (Strptime.strftime_iso (Strptime.Date y m d)) "%d/%m/%Y"
            = None) as ->; [|done].
    apply (strptime_no_match _ (day_month_re ++ year_re)); [reflexivity|].
    apply regex_match_app_None.
    unfold Strptime.strftime_iso. cbn [Strptime.year].
    destruct (pretty y) as [|a [|b [|c [|e [|]]]]]; try discriminate.
    apply andb_prop in Hyear as [Hyear _]. apply andb_prop in Hyear as [Hyear _].
    apply andb_prop in Hyear as [Hyear Hc]. apply andb_prop in Hyear as [_ Hb].
    by apply day_month_rejects_digits.
  - assert (Hf : ∀ fmt, fmt ∈ date_formats →
              Strptime.strptime (Strptime.strftime_iso (Strptime.Date y m d)) fmt = None).
    { intros f Hf. apply strftime_iso_short_unread; [lia|done..]. }
    rewrite !Hf; [done|unfold date_formats..];
      repeat first [apply list_elem_of_here | apply list_elem_of_further].
Qed.


(** ** Identifier synthesis *)

Lemma dataset_uri_present idx row :
  notna (row_get row "node_alias" (VStr "")) = true →
  dataset_uri idx row
  = URIRef ("https://data.gov.in" +:+ py_str (row_get row "node_alias" (VStr ""))).
Proof. unfold dataset_uri. cbv zeta. by intros ->. Qed.

Lemma dataset_uri_absent idx row :
  notna (row_get row "node_alias" (VStr "")) = false →
  dataset_uri idx row = URIRef ("https://data.gov.in/dataset/" +:+ pretty idx).
Proof. unfold dataset_uri. cbv zeta. by intros ->. Qed.

Lemma dublin_core_record_lookup `{R : Rdflib} df i row :
  df !! i = Some row →
  (create_dublin_core_graph df).2 !! i = Some (dublin_core_record i row).
Proof.
  intros Hi. rewrite dublin_core_graph_records, rows_from_singleton_lookup, Hi.
  done.
Qed.

Lemma dataset_type_in_dcat_graph `{R : Rdflib} df g rs i row :
  create_dcat_graph df = Some (g, rs) →
  df !! i = Some row →
  (dataset_uri i row, RDF_type, DCAT "Dataset") ∈ g.
Proof.
  intros Hg Hi. apply (elem_of_dcat_graph df g rs _ Hg). exists i, row. split; [done|].
  unfold dcat_triples. cbv zeta. apply elem_of_app. left. apply list_elem_of_singleton.
  done.
Qed.

(** C1: the dataset URI of a row is the base origin followed by the row's
    [node_alias] when that is present ([pd.notna]), verbatim for a text
    alias, and the base origin, [/dataset/] and the decimal row index when
    it is absent; it is the URI of the row's Dublin Core flat record and
    the subject of its Dataset triple in the graph the DCAT builder
    returns; two different rows without alias get different URIs. *)
Theorem dataset_uri_synthesis `{R : Rdflib} (df : DataFrame) (i : nat) (row : Row) :
  df !! i = Some row →
  let node_alias := row_get row "node_alias" (VStr "") in
  Dublin.dataset_uri <$> (create_dublin_core_graph df).2 !! i
  = Some (term_str (dataset_uri i row))
  ∧ (∀ g rs, create_dcat_graph df = Some (g, rs) →
     (dataset_uri i row, RDF_type, DCAT "Dataset") ∈ g)
  ∧ (notna node_alias = true →
     dataset_uri i row = URIRef ("https://data.gov.in" +:+ py_str node_alias))
  ∧ (∀ s, node_alias = VStr s →
     dataset_uri i row = URIRef ("https://data.gov.in" +:+ s))
  ∧ (notna node_alias = false →
     dataset_uri i row = URIRef ("https://data.gov.in/dataset/" +:+ pretty i))
  ∧ (∀ j row', df !! j = Some row' → i ≠ j →
     notna node_alias = false →
     notna (row_get row' "node_alias" (VStr "")) = false →
     dataset_uri i row ≠ dataset_uri j row').
Proof.
  intros Hi node_alias. split_and!.
  - by rewrite (dublin_core_record_lookup _ _ _ Hi).
  - intros g rs Hg. by apply (dataset_type_in_dcat_graph df g rs).
  - apply dataset_uri_present.
  - intros s Hs. rewrite dataset_uri_present; fold node_alias; by rewrite Hs.
  - apply dataset_uri_absent.
  - intros j row' _ Hij Hna Hna'.
    rewrite (dataset_uri_absent i row Hna), (dataset_uri_absent j row' Hna').
    intros [= Heq]. apply Hij.
    apply string_app_inj in Heq. by apply (inj pretty) in Heq.
Qed.

Lemma dataset_uri_synthesis_witness :
  let row : Row := {[ "node_alias" := VNaN; "title" := VStr "Rainfall" ]} in
  let df : DataFrame := [ {[ "node_alias" := VStr "/catalog/rainfall" ]}; row ] in
  df !! 1%nat = Some row
  ∧ notna (row_get row "node_alias" (VStr "")) = false
  ∧ (∀ R : Rdflib,
       Dublin.dataset_uri <$> (create_dublin_core_graph df).2 !! 1%nat
       = Some "https://data.gov.in/dataset/1"
       ∧ ∃ g rs, create_dcat_graph df = Some (g, rs)
           ∧ (URIRef "https://data.gov.in/dataset/1", RDF_type, DCAT "Dataset") ∈ g).
Proof.
  intros row df. split; [reflexivity|]. split; [reflexivity|]. intros R.
  pose proof (dataset_uri_synthesis df 1 row eq_refl) as (H & Hd & _ & _ & Habs & _).
  split; [rewrite H, (Habs eq_refl); reflexivity|].
  eexists _, _. split; [vm_compute; reflexivity|].
  exact (Hd _ _ eq_refl).
Defined.

(** C9: when the row has no [node_alias] key at all, the default empty text
    counts as a present alias: the dataset URI is the bare base origin in
    both builders, not the index form, and both graphs, the one of the
    DCAT builder whenever it returns one, get a landing-page triple that
    points at the bare base origin. *)
Theorem missing_alias_key_gives_base_origin `{R : Rdflib}
  (df : DataFrame) (i : nat) (row : Row) :
  df !! i = Some row →
  row !! "node_alias" = None →
  dataset_uri i row = URIRef "https://data.gov.in"
  ∧ dataset_uri i row ≠ URIRef ("https://data.gov.in/dataset/" +:+ pretty i)
  ∧ Dublin.dataset_uri <$> (create_dublin_core_graph df).2 !! i
    = Some "https://data.gov.in"
  ∧ Dublin.landingPage <$> (create_dublin_core_graph df).2 !! i
    = Some (Some "https://data.gov.in")
  ∧ (URIRef "https://data.gov.in", DCAT "landingPage", URIRef "https://data.gov.in")
    ∈ (create_dublin_core_graph df).1
  ∧ (∀ g rs, create_dcat_graph df = Some (g, rs) →
     (URIRef "https://data.gov.in", RDF_type, DCAT "Dataset") ∈ g
     ∧ (URIRef "https://data.gov.in", DCAT "landingPage", URIRef "https://data.gov.in")
       ∈ g).
Proof.
  intros Hi Hkey.
  assert (Halias : row_get row "node_alias" (VStr "") = VStr "")
    by (unfold row_get; by rewrite Hkey).
  assert (Huri : dataset_uri i row = URIRef "https://data.gov.in")
    by (unfold dataset_uri; by rewrite Halias).
  assert (Hland : (URIRef "https://data.gov.in", DCAT "landingPage",
                   URIRef "https://data.gov.in") ∈ landing_triple (dataset_uri i row) row).
  { unfold landing_triple. rewrite Halias, Huri. simpl. apply list_elem_of_singleton.
    done. }
  split_and!.
  - done.
  - rewrite Huri. by intros [=].
  - rewrite (dublin_core_record_lookup _ _ _ Hi). simpl. by rewrite Huri.
  - rewrite (dublin_core_record_lookup _ _ _ Hi). simpl. by rewrite Halias.
  - apply elem_of_dublin_core_graph. exists i, row. split; [done|].
    unfold dublin_core_triples. cbv zeta. rewrite !elem_of_app. auto 20.
  - intros g rs Hg. split.
    + rewrite <- Huri. by apply (dataset_type_in_dcat_graph df g rs).
    + apply (elem_of_dcat_graph df g rs _ Hg). exists i, row. split; [done|].
      unfold dcat_triples. cbv zeta. rewrite !elem_of_app. auto 20.
Qed.

Lemma missing_alias_key_gives_base_origin_witness :
  let row : Row := {[ "title" := VStr "Rainfall" ]} in
  [row; row] !! 1%nat = Some row
  ∧ row !! "node_alias" = None
  ∧ (∀ R : Rdflib, ∃ g rs,
       create_dcat_graph [row; row] = Some (g, rs)
       ∧ (URIRef "https://data.gov.in", DCAT "landingPage",
          URIRef "https://data.gov.in") ∈ g).
Proof.
  intros row. split; [reflexivity|]. split; [reflexivity|]. intros R.
  eexists _, _. split; [vm_compute; reflexivity|].
  destruct (missing_alias_key_gives_base_origin [row; row] 1 row eq_refl eq_refl)
    as (_ & _ & _ & _ & _ & Hd).
  exact (proj2 (Hd _ _ eq_refl)).
Defined.

(** ** Frequencies and dates *)

Lemma normalize_frequency_space l s r :
  all_space l = true → all_space r = true →
  normalize_frequency (VStr (l +:+ s +:+ r)) = normalize_frequency (VStr s).
Proof.
  intros Hl Hr. unfold normalize_frequency. cbn [notna py_str]. cbv zeta.
  rewrite !lower_app, strip_app_space; [done|by rewrite all_space_lower..].
Qed.

(** C6: [normalize_frequency] gives nothing for an absent cell; for a
    present one it lower-cases and strips the text and maps the five keys
    daily, weekly, monthly, yearly and quarterly to their frequency URIs
    (yearly to the annual one), and gives back the lower-cased stripped
    text for any other key.  Lower-casing and stripping are what the words
    say: the text of the cell in any capitalisation and with any white
    space around it gives the same result, a key of the vocabulary so
    written gives its URI, and the text looked up is the lower-cased text
    without the white space at its two ends, with no capital letter
    left. *)
Theorem normalize_frequency_vocabulary (v : value) :
  normalize_frequency VNone = None
  ∧ normalize_frequency VNaN = None
  ∧ normalize_frequency v =
      (if notna v then
         let k := PyStr.strip (PyStr.lower (py_str v)) in
         Some (if decide (k = "daily") then "http://purl.org/cld/freq/daily"
               else if decide (k = "weekly") then "http://purl.org/cld/freq/weekly"
               else if decide (k = "monthly") then "http://purl.org/cld/freq/monthly"
               else if decide (k = "yearly") then "http://purl.org/cld/freq/annual"
               else if decide (k = "quarterly")
                    then "http://purl.org/cld/freq/quarterly"
               else k)
       else None)
  ∧ (∀ l s r, all_space l = true → all_space r = true →
       normalize_frequency (VStr (l +:+ s +:+ r)) = normalize_frequency (VStr s))
  ∧ (∀ s, normalize_frequency (VStr (PyStr.lower s)) = normalize_frequency (VStr s))
  ∧ (∀ key uri l s r, (key, uri) ∈ freq_mapping → PyStr.lower s = key →
       all_space l = true → all_space r = true →
       normalize_frequency (VStr (l +:+ s +:+ r)) = Some uri)
  ∧ (∃ l r, PyStr.lower (py_str v) = l +:+ PyStr.strip (PyStr.lower (py_str v)) +:+ r
       ∧ all_space l = true ∧ all_space r = true
       ∧ trimmed (PyStr.strip (PyStr.lower (py_str v))) = true
       ∧ no_upper (PyStr.strip (PyStr.lower (py_str v))) = true)
  ∧ (∀ s t, PyStr.lower (s +:+ t) = PyStr.lower s +:+ PyStr.lower t)
  ∧ (∀ s, no_upper s = true → PyStr.lower s = s)
  ∧ PyStr.lower "ABCDEFGHIJKLMNOPQRSTUVWXYZ" = "abcdefghijklmnopqrstuvwxyz"
  ∧ normalize_frequency (VStr "Weekly ") = Some "http://purl.org/cld/freq/weekly"
  ∧ normalize_frequency (VStr " weekly") = Some "http://purl.org/cld/freq/weekly"
  ∧ normalize_frequency (VStr (String "009" "YEARLY" +:+ String "010" ""))
    = Some "http://purl.org/cld/freq/annual"
  ∧ normalize_frequency (VStr "  Half Yearly ") = Some "half yearly"
  ∧ normalize_frequency (VStr "fortnightly") = Some "fortnightly".
Proof.
  split_and!; try reflexivity.
  - unfold normalize_frequency, freq_mapping. destruct (notna v); [|done].
    cbv zeta. f_equal. cbn [dict_get].
    generalize (PyStr.strip (PyStr.lower (py_str v))). intros k.
    repeat match goal with
           | |- context [String.eqb ?a k] =>
               destruct (String.eqb_spec a k) as [<-|Hne];
               [ by repeat case_decide
               | case_decide as Hk; [by subst|]; clear Hne Hk ]
           end.
    done.
  - apply normalize_frequency_space.
  - intros s. unfold normalize_frequency. cbn [notna py_str]. cbv zeta.
    by rewrite lower_idemp.
  - intros key uri l s r Hkey Hs Hl Hr.
    rewrite (normalize_frequency_space l s r Hl Hr).
    unfold normalize_frequency. cbn [notna py_str]. cbv zeta. rewrite Hs.
    unfold freq_mapping in *.
    repeat (apply elem_of_cons in Hkey as [[= -> ->]|Hkey]; [reflexivity|]).
    by apply elem_of_nil in Hkey.
  - destruct (strip_split (PyStr.lower (py_str v))) as (l & r & Hs & Hl & Hr).
    exists l, r. split_and!; [done..|apply strip_trimmed|].
    pose proof (no_upper_lower (py_str v)) as Hu. rewrite Hs in Hu at 1.
    clear Hs. revert Hu. generalize (PyStr.strip (PyStr.lower (py_str v))).
    intros k. induction l as [|c l IH].
    + change ("" +:+ k +:+ r) with (k +:+ r). clear Hl.
      induction k as [|c k IH]; [done|].
      change (String c k +:+ r) with (String c (k +:+ r)). simpl.
      intros [-> ?]%andb_prop. auto.
    + change (String c l +:+ k +:+ r) with (String c (l +:+ k +:+ r)). simpl.
      simpl in Hl. apply andb_prop in Hl as [_ Hl]. intros [_ ?]%andb_prop. auto.
  - apply lower_app.
  - apply lower_no_upper.
Qed.




(** ** Distributions *)



Lemma url_ok_text key row :
  url_ok key row = true
  ↔ (notna (get row key) = true → ∃ s, item row key = VStr s).
Proof.
  unfold url_ok. destruct (notna (get row key)); [|by split].
  rewrite bool_decide_eq_true. unfold URIRef_of.
  destruct (item row key); split; try done; try (by intros H; eauto);
    intros H; by destruct (H eq_refl).
Qed.



Lemma dist_uri_distinct u : 
  dist_uri u "/distribution/api" ≠ dist_uri u "/distribution/file".
Proof. unfold dist_uri. intros [= H]. by apply string_app_inj in H. Qed.

Lemma distribution_type_cases `{R : Rdflib} idx row x :
  x ∈ dcat_triples idx row →
  predicate x = RDF_type → object x = DCAT "Distribution" →
  (x = (dist_uri (dataset_uri idx row) "/distribution/api", RDF_type, DCAT "Distribution")
   ∧ notna (get row "datafile_url") = true)
  ∨ (x = (dist_uri (dataset_uri idx row) "/distribution/file", RDF_type, DCAT "Distribution")
     ∧ notna (get row "datafile") = true).
Proof.
  intros H Hp Ho. triple_cases H; subst x; try discriminate; auto.
Qed.








(** ** The Dublin Core fields in the DCAT graph *)

Lemma elem_of_dublin_core_triples `{R : Rdflib} idx row x :
  x ∈ dublin_core_triples idx row
  ↔ x ∈ shared_triples (dataset_uri idx row) row
    ∨ x ∈ date_triple (dataset_uri idx row) "created" (get row "created")
    ∨ x ∈ sector_triples (dataset_uri idx row) (DCT "subject") row.
Proof.
  unfold dublin_core_triples, shared_triples. cbv zeta. rewrite !elem_of_app. tauto.
Qed.

Lemma elem_of_dcat_triples `{R : Rdflib} idx row x :
  x ∈ dcat_triples idx row
  ↔ x = (dataset_uri idx row, RDF_type, DCAT "Dataset")
    ∨ x ∈ shared_triples (dataset_uri idx row) row
    ∨ x ∈ sector_triples (dataset_uri idx row) (DCAT "theme") row
    ∨ x ∈ distribution_triples (dataset_uri idx row) "/distribution/api"
            "accessURL" "datafile_url" row
    ∨ x ∈ distribution_triples (dataset_uri idx row) "/distribution/file"
            "downloadURL" "datafile" row.
Proof.
  unfold dcat_triples, shared_triples. cbv zeta.
  rewrite !elem_of_app, list_elem_of_singleton. tauto.
Qed.

Lemma date_triple_predicate `{R : Rdflib} u name v x :
  x ∈ date_triple u name v → predicate x = DCT name.
Proof.
  unfold date_triple. case_match; [|by intros ?%elem_of_nil].
  by intros ->%list_elem_of_singleton.
Qed.

Lemma sector_triples_predicate u p row x :
  x ∈ sector_triples u p row → predicate x = p.
Proof.
  unfold sector_triples. case_match; [|by intros ?%elem_of_nil].
  by intros (s & -> & _)%list_elem_of_fmap.
Qed.

Lemma distribution_triples_predicate u suffix url_pred key row x :
  x ∈ distribution_triples u suffix url_pred key row →
  predicate x ∈ [RDF_type; DCAT "distribution"; DCAT url_pred; DCT "format";
                 DCAT "mediaType"; DCAT "byteSize"].
Proof.
  unfold distribution_triples, url_triple, format_triples, size_triple. cbv zeta.
  intros H. repeat case_match; rewrite ?elem_of_app in H; destruct_or? H;
    repeat (apply elem_of_cons in H; destruct H as [H|H]);
    try (apply elem_of_nil in H; destruct H); subst x;
    unfold predicate; cbn [fst snd]; rewrite !elem_of_cons; auto 10.
Qed.

Lemma shared_triples_row `{R : Rdflib} idx row x :
  predicate x ∈ shared_predicates →
  x ∈ dublin_core_triples idx row ↔ x ∈ dcat_triples idx row.
Proof.
  intros Hp. rewrite elem_of_dublin_core_triples, elem_of_dcat_triples.
  unfold shared_predicates in Hp.
  split.
  - intros [?|[H|H]]; [by auto| |].
    + apply date_triple_predicate in H. rewrite H in Hp.
      repeat (apply elem_of_cons in Hp as [Hp|Hp]; [discriminate|]).
      by apply elem_of_nil in Hp.
    + apply sector_triples_predicate in H. rewrite H in Hp.
      repeat (apply elem_of_cons in Hp as [Hp|Hp]; [discriminate|]).
      by apply elem_of_nil in Hp.
  - intros [->|[?|[H|[H|H]]]]; [|by auto|..].
    + repeat (apply elem_of_cons in Hp as [Hp|Hp]; [discriminate|]).
      by apply elem_of_nil in Hp.
    + apply sector_triples_predicate in H. rewrite H in Hp.
      repeat (apply elem_of_cons in Hp as [Hp|Hp]; [discriminate|]).
      by apply elem_of_nil in Hp.
    + apply distribution_triples_predicate in H.
      repeat (apply elem_of_cons in H as [H|H];
              [ rewrite H in Hp;
                repeat (apply elem_of_cons in Hp as [Hp|Hp]; [discriminate|]);
                by apply elem_of_nil in Hp |]).
      by apply elem_of_nil in H.
    + apply distribution_triples_predicate in H.
      repeat (apply elem_of_cons in H as [H|H];
              [ rewrite H in Hp;
                repeat (apply elem_of_cons in Hp as [Hp|Hp]; [discriminate|]);
                by apply elem_of_nil in Hp |]).
      by apply elem_of_nil in H.
Qed.

Lemma dcat_triples_no_created `{R : Rdflib} idx row x :
  x ∈ dcat_triples idx row → predicate x ≠ DCT "created".
Proof.
  intros H Hp. triple_cases H; subst x; discriminate.
Qed.

(** C2, as the code has it: for title, description, the issued and modified
    dates, publisher, frequency and landing page, the Dublin Core graph and
    the graph the DCAT builder returns for a table hold the same triples;
    the DCAT graph holds no created triple. *)
Theorem dcat_shares_dataset_fields `{R : Rdflib}
  (df : DataFrame) (g : Graph) (rs : list Dcat.record) (x : triple) :
  create_dcat_graph df = Some (g, rs) →
  predicate x ∈ shared_predicates →
  (x ∈ (create_dublin_core_graph df).1 ↔ x ∈ g)
  ∧ ∀ y, y ∈ g → predicate y ≠ DCT "created".
Proof.
  intros Hg Hp. split.
  - rewrite elem_of_dublin_core_graph, (elem_of_dcat_graph df g rs x Hg).
    split; intros (i & row & Hi & H); exists i, row; (split; [done|]);
      by apply (shared_triples_row i row x Hp).
  - intros y (i & row & _ & H)%(elem_of_dcat_graph df g rs y Hg).
    by apply (dcat_triples_no_created i row).
Qed.

Lemma dcat_shares_dataset_fields_witness :
  let row : Row :=
    {[ "node_alias" := VStr "/catalog/rainfall"; "title" := VStr "Rainfall";
       "published_date" := VStr "03/04/2020" ]} in
  DCT "issued" ∈ shared_predicates
  ∧ (∀ R : Rdflib,
       let x := (URIRef "https://data.gov.in/catalog/rainfall", DCT "issued",
                 date_literal "2020-04-03") in
       x ∈ (create_dublin_core_graph [row]).1
       ∧ ∃ g rs, create_dcat_graph [row] = Some (g, rs) ∧ x ∈ g).
Proof.
  intros row.
  assert (Hp : DCT "issued" ∈ shared_predicates).
  { do 2 apply list_elem_of_further. apply list_elem_of_here. }
  split; [exact Hp|]. intros R x.
  assert (Hx : x ∈ (create_dublin_core_graph [row]).1).
  { vm_compute. apply list_elem_of_further. apply list_elem_of_here. }
  split; [exact Hx|].
  eexists _, _. split; [vm_compute; reflexivity|].
  exact (proj1 (proj1 (dcat_shares_dataset_fields [row] _ _ x eq_refl Hp)) Hx).
Defined.

(** The DCAT builder leaves out the created date that the Dublin Core
    builder emits. *)
Lemma created_date_missing_in_dcat :
  let row : Row :=
    {[ "node_alias" := VStr "/catalog/rainfall"; "created" := VStr "2021-05-01" ]} in
  parse_date (get row "created") = Some "2021-05-01"
  ∧ (∀ R : Rdflib,
       let x := (URIRef "https://data.gov.in/catalog/rainfall", DCT "created",
                 date_literal "2021-05-01") in
       x ∈ (create_dublin_core_graph [row]).1
       ∧ ∃ g rs, create_dcat_graph [row] = Some (g, rs) ∧ x ∉ g).
Proof.
  intros row. split; [reflexivity|]. intros R x. split.
  - vm_compute. apply list_elem_of_here.
  - eexists _, _. split; [vm_compute; reflexivity|].
    vm_compute. intros H.
    repeat (apply elem_of_cons in H as [H|H]; [discriminate|]).
    by apply elem_of_nil in H.
Qed.

(** ** Dates that do not parse *)







(** ** Determinism *)

Lemma get_agree r1 r2 k : rows_agree r1 r2 → k ∈ columns → get r1 k = get r2 k.
Proof. intros H Hk. unfold get, row_get. by rewrite (H k Hk). Qed.

Lemma views_agree `{R : Rdflib} idx r1 r2 :
  rows_agree r1 r2 →
  dataset_uri idx r1 = dataset_uri idx r2
  ∧ dublin_core_triples idx r1 = dublin_core_triples idx r2
  ∧ dublin_core_record idx r1 = dublin_core_record idx r2
  ∧ dcat_triples idx r1 = dcat_triples idx r2
  ∧ dcat_records idx r1 = dcat_records idx r2
  ∧ row_ok r1 = row_ok r2.
Proof.
  intros H.
  assert (Hget : Forall (fun k => get r1 k = get r2 k) columns).
  { apply Forall_forall. intros k Hk. by apply get_agree. }
  unfold columns in Hget.
  repeat (apply Forall_cons in Hget as [? Hget]).
  assert (Halias : row_get r1 "node_alias" (VStr "") = row_get r2 "node_alias" (VStr "")).
  { unfold row_get. rewrite (H "node_alias"); [done|]. apply list_elem_of_here. }
  unfold row_ok, url_ok. unfold_views.
  unfold get_description, get_publisher, item.
  repeat match goal with E : get r1 _ = get r2 _ |- _ => rewrite !E; clear E end.
  rewrite !Halias. done.
Qed.

Lemma rows_from_agree {B} (f : nat → Row → list B) df1 df2 idx :
  Forall2 (fun r1 r2 => ∀ i, f i r1 = f i r2) df1 df2 →
  rows_from idx df1 f = rows_from idx df2 f.
Proof.
  intros H. revert idx. induction H as [|r1 r2 df1 df2 Hr _ IH]; intros idx; [done|].
  simpl. by rewrite Hr, IH.
Qed.

(** C8: the builders are functions of the table alone, and of the columns
    they read only: two tables whose rows agree on these columns, so two
    runs on the same table, give the same graph and the same flat records in
    the same order; the dataset URI of a row depends on its index and its
    [node_alias] cell only, and a distribution URI on the dataset URI
    only. *)
Theorem builders_deterministic `{R : Rdflib} :
  (∀ df1 df2 : DataFrame,
     Forall2 rows_agree df1 df2 →
     create_dublin_core_graph df1 = create_dublin_core_graph df2
     ∧ create_dcat_graph df1 = create_dcat_graph df2)
  ∧ (∀ df1 df2 : DataFrame,
       df1 = df2 →
       create_dublin_core_graph df1 = create_dublin_core_graph df2
       ∧ create_dcat_graph df1 = create_dcat_graph df2)
  ∧ (∀ (idx : nat) (r1 r2 : Row),
       r1 !! "node_alias" = r2 !! "node_alias" →
       dataset_uri idx r1 = dataset_uri idx r2
       ∧ ∀ suffix, dist_uri (dataset_uri idx r1) suffix
                   = dist_uri (dataset_uri idx r2) suffix).
Proof.
  assert (Hmain : ∀ df1 df2 : DataFrame,
     Forall2 rows_agree df1 df2 →
     create_dublin_core_graph df1 = create_dublin_core_graph df2
     ∧ create_dcat_graph df1 = create_dcat_graph df2).
  { intros df1 df2 H. split.
    - rewrite (surjective_pairing (create_dublin_core_graph df1)),
        (surjective_pairing (create_dublin_core_graph df2)).
      rewrite !dublin_core_graph_triples, !dublin_core_graph_records.
      f_equal; [f_equal|]; apply rows_from_agree;
        (eapply Forall2_impl; [exact H|]); intros r1 r2 Hr i;
        destruct (views_agree i r1 r2 Hr) as (_ & ? & ? & _); congruence.
    - rewrite !create_dcat_graph_eq.
      assert (forallb row_ok df1 = forallb row_ok df2) as ->.
      { induction H as [|r1 r2 df1 df2 Hr _ IH]; [done|]. simpl.
        destruct (views_agree 0 r1 r2 Hr) as (_ & _ & _ & _ & _ & ->).
        by rewrite IH. }
      destruct (forallb row_ok df2); [|done].
      f_equal; f_equal; [f_equal|]; apply rows_from_agree;
        (eapply Forall2_impl; [exact H|]); intros r1 r2 Hr i;
        destruct (views_agree i r1 r2 Hr) as (_ & _ & _ & ? & ? & _); congruence. }
  split_and!.
  - exact Hmain.
  - intros df1 df2 ->. done.
  - intros idx r1 r2 H.
    assert (dataset_uri idx r1 = dataset_uri idx r2) as Hu
      by (unfold dataset_uri, row_get; by rewrite H).
    split; [done|]. intros suffix. by rewrite Hu.
Qed.

Lemma builders_deterministic_witness :
  let r1 : Row :=
    {[ "node_alias" := VStr "/catalog/rainfall"; "title" := VStr "Rainfall";
       "nid" := VInt 1 ]} in
  let r2 : Row :=
    {[ "node_alias" := VStr "/catalog/rainfall"; "title" := VStr "Rainfall";
       "nid" := VInt 2 ]} in
  Forall2 rows_agree [r1] [r2]
  ∧ (∀ R : Rdflib, create_dcat_graph [r1] = create_dcat_graph [r2]
       ∧ is_Some (create_dcat_graph [r1])).
Proof.
  intros r1 r2.
  assert (H : Forall2 rows_agree [r1] [r2]).
  { constructor; [|constructor]. intros k Hk. unfold columns in Hk.
    repeat (apply elem_of_cons in Hk as [->|Hk]; [reflexivity|]).
    by apply elem_of_nil in Hk. }
  split; [exact H|]. intros R.
  split; [exact (proj2 (proj1 builders_deterministic [r1] [r2] H))|].
  vm_compute. eauto.
Defined.

(** ** Shape of the graphs *)

Lemma dataset_uri_under_base idx row :
  ∃ s, dataset_uri idx row = URIRef ("https://data.gov.in" +:+ s).
Proof.
  unfold dataset_uri. cbv zeta. case_match.
  - by eexists.
  - by exists ("/dataset/" +:+ pretty idx).
Qed.

Lemma dataset_uri_term_str idx row :
  URIRef (term_str (dataset_uri idx row)) = dataset_uri idx row.
Proof. by destruct (dataset_uri_under_base idx row) as [s ->]. Qed.

Lemma dublin_core_triples_subject `{R : Rdflib} idx row x :
  x ∈ dublin_core_triples idx row → subject x = dataset_uri idx row.
Proof. intros H. triple_cases H; by subst x. Qed.

Lemma dcat_triples_subject `{R : Rdflib} idx row x :
  x ∈ dcat_triples idx row →
  subject x = dataset_uri idx row
  ∨ subject x = dist_uri (dataset_uri idx row) "/distribution/api"
  ∨ subject x = dist_uri (dataset_uri idx row) "/distribution/file".
Proof. intros H. triple_cases H; subst x; auto. Qed.

(** Every triple of either graph is about a resource the builder
    synthesized: in the Dublin Core graph the dataset URI of a row of the
    table, in a graph the DCAT builder returns that or one of its two
    distribution URIs; all of them lie under the base origin. *)
Theorem subjects_are_synthesized `{R : Rdflib} (df : DataFrame) (x : triple) :
  (x ∈ (create_dublin_core_graph df).1 →
   ∃ i row, df !! i = Some row ∧ subject x = dataset_uri i row)
  ∧ (∀ g rs, create_dcat_graph df = Some (g, rs) → x ∈ g →
     ∃ i row, df !! i = Some row
       ∧ (subject x = dataset_uri i row
          ∨ subject x = dist_uri (dataset_uri i row) "/distribution/api"
          ∨ subject x = dist_uri (dataset_uri i row) "/distribution/file"))
  ∧ (x ∈ (create_dublin_core_graph df).1
     ∨ (∃ g rs, create_dcat_graph df = Some (g, rs) ∧ x ∈ g) →
     ∃ s, subject x = URIRef ("https://data.gov.in" +:+ s)).
Proof.
  split_and!.
  - intros (i & row & Hi & H)%elem_of_dublin_core_graph.
    exists i, row. split; [done|]. by apply dublin_core_triples_subject.
  - intros g rs Hg (i & row & Hi & H)%(elem_of_dcat_graph df g rs x Hg).
    exists i, row. split; [done|]. by apply dcat_triples_subject.
  - intros [(i & row & Hi & H)%elem_of_dublin_core_graph
           |(g & rs & Hg & (i & row & Hi & H)%(elem_of_dcat_graph df g rs x Hg))].
    + apply dublin_core_triples_subject in H as ->. apply dataset_uri_under_base.
    + destruct (dataset_uri_under_base i row) as [s Hs].
      apply dcat_triples_subject in H as [->|[->| ->]]; unfold dist_uri;
        rewrite ?Hs; simpl; [by eexists|..].
      * by exists (s +:+ "/distribution/api").
      * by exists (s +:+ "/distribution/file").
Qed.

Lemma subjects_are_synthesized_witness :
  let row : Row :=
    {[ "node_alias" := VStr "/catalog/rainfall"; "datafile" := VStr "rainfall.csv" ]} in
  let x := (URIRef "https://data.gov.in/catalog/rainfall/distribution/file",
            DCAT "downloadURL", URIRef "rainfall.csv") in
  [row] !! 0%nat = Some row
  ∧ (∀ R : Rdflib, ∃ g rs,
       create_dcat_graph [row] = Some (g, rs) ∧ x ∈ g
       ∧ ∃ s, subject x = URIRef ("https://data.gov.in" +:+ s)).
Proof.
  intros row x. split; [reflexivity|]. intros R.
  eexists _, _. split; [vm_compute; reflexivity|].
  match goal with |- x ∈ ?g ∧ _ => assert (Hx : x ∈ g) end.
  { do 4 apply list_elem_of_further. apply list_elem_of_here. }
  split; [exact Hx|].
  refine (proj2 (proj2 (subjects_are_synthesized [row] x)) (or_intror _)).
  eexists _, _. split; [|exact Hx]. vm_compute. reflexivity.
Defined.

(** ** Flat records and the graphs *)

Lemma length_rows_from {B} (f : nat → Row → list B) (g : Row → nat) df idx :
  (∀ i row, length (f i row) = g row) →
  length (rows_from idx df f) = sum_list (g <$> df).
Proof.
  intros Hf. revert idx. induction df as [|r df IH]; intros idx; simpl; [done|].
  by rewrite length_app, Hf, IH.
Qed.

Lemma sum_list_indicator (P : Row → bool) (df : DataFrame) :
  sum_list ((fun row => if P row then 1 else 0)%nat <$> df)
  = length (filter (fun row => P row = true) df).
Proof.
  induction df as [|r df IH]; [done|].
  rewrite fmap_cons, filter_cons. cbn [sum_list sum_list_with id]. rewrite IH.
  destruct (P r) eqn:HP; case_decide; try done.
Qed.

Lemma sum_list_fmap_add {A} (f g : A → nat) (l : list A) :
  sum_list ((fun x => f x + g x)%nat <$> l)
  = (sum_list (f <$> l) + sum_list (g <$> l))%nat.
Proof.
  induction l as [|x l IH]; [done|].
  rewrite !fmap_cons. cbn [sum_list sum_list_with id]. rewrite IH. lia.
Qed.

Lemma elem_of_dublin_core_records `{R : Rdflib} df r :
  r ∈ (create_dublin_core_graph df).2
  ↔ ∃ i row, df !! i = Some row ∧ r = dublin_core_record i row.
Proof.
  rewrite dublin_core_graph_records, elem_of_rows_from. simpl.
  by setoid_rewrite list_elem_of_singleton.
Qed.

(** The Dublin Core builder gives one flat record for each row, in the
    order of the rows; the DCAT builder, when it returns, gives one for
    each present [datafile_url] and one for each present [datafile], so at
    most two for a row, and it returns none for an empty table. *)
Theorem flat_record_counts `{R : Rdflib} (df : DataFrame) :
  length (create_dublin_core_graph df).2 = length df
  ∧ (∀ i row, df !! i = Some row →
       (create_dublin_core_graph df).2 !! i = Some (dublin_core_record i row))
  ∧ (∀ g rs, create_dcat_graph df = Some (g, rs) →
       length rs
       = (length (present_in "datafile_url" df) + length (present_in "datafile" df))%nat
       ∧ (length rs ≤ 2 * length df)%nat)
  ∧ create_dcat_graph [] = Some ([], []).
Proof.
  split_and!.
  - rewrite dublin_core_graph_records.
    rewrite (length_rows_from _ (fun _ => 1%nat)) by done.
    induction df as [|r df IH]; [done|].
    rewrite fmap_cons. cbn [sum_list sum_list_with length id]. by rewrite IH.
  - apply dublin_core_record_lookup.
  - intros g rs (_ & _ & ->)%create_dcat_graph_Some.
    assert (Hdcat : length (rows_from 0 df dcat_records)
      = (length (present_in "datafile_url" df)
         + length (present_in "datafile" df))%nat).
    { rewrite (length_rows_from dcat_records
                 (fun row => (if notna (get row "datafile_url") then 1 else 0)
                             + (if notna (get row "datafile") then 1 else 0))%nat).
      - unfold present_in. rewrite <- !sum_list_indicator.
        apply sum_list_fmap_add.
      - intros i row. unfold dcat_records. rewrite length_app.
        by destruct (notna (get row "datafile_url")), (notna (get row "datafile")). }
    split; [exact Hdcat|]. rewrite Hdcat. unfold present_in.
    pose proof (length_filter (fun row => notna (get row "datafile_url") = true) df).
    pose proof (length_filter (fun row => notna (get row "datafile") = true) df).
    lia.
  - reflexivity.
Qed.

Lemma flat_record_counts_witness :
  let row : Row :=
    {[ "node_alias" := VStr "/catalog/rainfall"; "datafile" := VStr "rainfall.csv" ]} in
  [row] !! 0%nat = Some row
  ∧ (∀ R : Rdflib,
       (create_dublin_core_graph [row]).2 !! 0%nat = Some (dublin_core_record 0 row)
       ∧ ∃ g rs, create_dcat_graph [row] = Some (g, rs) ∧ length rs = 1%nat).
Proof.
  intros row. split; [reflexivity|]. intros R.
  destruct (flat_record_counts [row]) as (_ & H & Hd & _).
  split; [exact (H 0%nat row eq_refl)|].
  eexists _, _. split; [vm_compute; reflexivity|].
  exact (proj1 (Hd _ _ eq_refl)).
Defined.

Lemma truthy_iff (o : option string) :
  truthy o = true ↔ ∃ s, o = Some s ∧ s ≠ "".
Proof.
  destruct o as [s|]; simpl.
  - rewrite negb_true_iff, String.eqb_neq. split; [by eauto|].
    by intros (? & [= <-] & ?).
  - split; [done|]. by intros (? & ? & _).
Qed.

Lemma text_field_triples `{R : Rdflib} name field lit idx row x :
  (name, field, lit) ∈ text_fields →
  predicate x = DCT name →
  x ∈ dublin_core_triples idx row
  ↔ ∃ s, field (dublin_core_record idx row) = Some s ∧ s ≠ ""
       ∧ x = (dataset_uri idx row, DCT name, lit s).
Proof.
  intros Hf Hp. unfold text_fields in Hf.
  assert (Hpiece : ∀ o : option string,
            x ∈ (if truthy o
                 then [(dataset_uri idx row, DCT name, lit (py_str (opt_val o)))]
                 else [])
            ↔ ∃ s, o = Some s ∧ s ≠ ""
                 ∧ x = (dataset_uri idx row, DCT name, lit s)).
  { intros o. destruct (truthy o) eqn:Ho.
    - apply truthy_iff in Ho as (s & -> & Hs). rewrite list_elem_of_singleton. simpl.
      split; [by eauto|]. by intros (? & [= <-] & _ & ?).
    - rewrite elem_of_nil. split; [done|]. intros (s & -> & Hs & _).
      assert (truthy (Some s) = true) by (apply truthy_iff; eauto). congruence. }
  assert (Hplain : ∀ o : option string,
            truthy o = true → Literal (opt_val o) None = Literal (VStr (py_str (opt_val o))) None).
  { intros o (s & -> & _)%truthy_iff. done. }
  repeat (apply elem_of_cons in Hf as [[= -> -> ->]|Hf]);
    [..|by apply elem_of_nil in Hf];
    cbn [dublin_core_record Dublin.description Dublin.issued Dublin.modified
         Dublin.created Dublin.publisher];
    rewrite <- Hpiece; clear Hpiece;
    (split;
     [ intros H; triple_cases H; subst x; try discriminate;
       repeat match goal with
              | E : truthy _ = true |- _ => rewrite ?E, ?(Hplain _ E); clear E
              end;
       by apply list_elem_of_singleton
     | intros H;
       unfold dublin_core_triples, description_triple, date_triple, publisher_triple;
       cbv zeta; rewrite !elem_of_app;
       destruct (truthy _) eqn:E in H; [|by apply elem_of_nil in H];
       rewrite E, ?(Hplain _ E); auto 10 ]).
Qed.

(** The Dublin Core graph and flat records agree on description, issued,
    modified, created and publisher: the graph holds a triple of that
    predicate exactly for the flat records whose field is a non-empty text,
    about the record's dataset URI, with the literal of that text: the
    plain literal for description and publisher, the literal of the date
    datatype that rdflib builds from the text for the three dates. *)
Theorem graph_mirrors_flat_records `{R : Rdflib}
  (df : DataFrame) name field lit (x : triple) :
  (name, field, lit) ∈ text_fields →
  predicate x = DCT name →
  (x ∈ (create_dublin_core_graph df).1
   ↔ ∃ r s, r ∈ (create_dublin_core_graph df).2
        ∧ field r = Some s ∧ s ≠ ""
        ∧ x = (URIRef (Dublin.dataset_uri r), DCT name, lit s))
  ∧ (lit = (fun s => Literal (VStr s) None) ∨ lit = date_literal).
Proof.
  intros Hf Hp. split.
  - rewrite elem_of_dublin_core_graph. split.
    + intros (i & row & Hi & H).
      apply (text_field_triples name field lit i row x Hf Hp) in H
        as (s & Hs & Hne & ->).
      exists (dublin_core_record i row), s. split_and!; try done.
      * apply elem_of_dublin_core_records. eauto.
      * simpl. by rewrite dataset_uri_term_str.
    + intros (r & s & (i & row & Hi & ->)%elem_of_dublin_core_records & Hs & Hne & ->).
      exists i, row. split; [done|].
      apply (text_field_triples name field lit i row _ Hf); [done|].
      exists s. split_and!; try done. simpl. by rewrite dataset_uri_term_str.
  - unfold text_fields in Hf.
    repeat (apply elem_of_cons in Hf as [[= _ _ ->]|Hf]; [by auto|]).
    by apply elem_of_nil in Hf.
Qed.

Lemma graph_mirrors_flat_records_witness :
  let row : Row :=
    {[ "node_alias" := VStr "/catalog/rainfall";
       "published_date" := VStr "3/4/2020" ]} in
  parse_date (get row "published_date") = Some "2020-04-03"
  ∧ (∀ R : Rdflib,
       (("issued", Dublin.issued, date_literal)
          : string * (Dublin.record → option string) * (string → term)) ∈ text_fields
       ∧ (URIRef "https://data.gov.in/catalog/rainfall", DCT "issued",
          date_literal "2020-04-03") ∈ (create_dublin_core_graph [row]).1).
Proof.
  intros row. split; [reflexivity|]. intros R.
  assert (Hf : (("issued", Dublin.issued, date_literal)
     : string * (Dublin.record → option string) * (string → term)) ∈ text_fields).
  { apply list_elem_of_further. apply list_elem_of_here. }
  split; [exact Hf|].
  apply (proj1 (graph_mirrors_flat_records [row] "issued" Dublin.issued date_literal
                  (URIRef "https://data.gov.in/catalog/rainfall", DCT "issued",
                   date_literal "2020-04-03") Hf eq_refl)).
  exists (dublin_core_record 0 row), "2020-04-03".
  split; [|split; [reflexivity|split; [discriminate|reflexivity]]].
  vm_compute. apply list_elem_of_here.
Defined.

(** ** Shape of the DCAT graph *)

(** A landing page is the dataset URI itself: in either graph the object
    of a landing-page triple is its subject. *)
Theorem landing_page_is_dataset_uri `{R : Rdflib} (df : DataFrame) (x : triple) :
  x ∈ (create_dublin_core_graph df).1
  ∨ (∃ g rs, create_dcat_graph df = Some (g, rs) ∧ x ∈ g) →
  predicate x = DCAT "landingPage" →
  object x = subject x.
Proof.
  intros [(i & row & _ & H)%elem_of_dublin_core_graph
         |(g & rs & Hg & (i & row & _ & H)%(elem_of_dcat_graph df g rs x Hg))] Hp;
    triple_cases H; subst x; try discriminate;
    unfold object, subject; cbn [fst snd]; by rewrite dataset_uri_present.
Qed.

Lemma landing_page_is_dataset_uri_witness :
  let row : Row := {[ "node_alias" := VStr "/catalog/rainfall" ]} in
  let x := (URIRef "https://data.gov.in/catalog/rainfall", DCAT "landingPage",
            URIRef "https://data.gov.in/catalog/rainfall") in
  predicate x = DCAT "landingPage"
  ∧ (∀ R : Rdflib, x ∈ (create_dublin_core_graph [row]).1 ∧ object x = subject x).
Proof.
  intros row x. split; [reflexivity|]. intros R.
  assert (Hx : x ∈ (create_dublin_core_graph [row]).1)
    by (vm_compute; apply list_elem_of_here).
  split; [exact Hx|].
  exact (landing_page_is_dataset_uri [row] x (or_introl Hx) eq_refl).
Defined.

(** Under the guard of a distribution, a cell that [URIRef] takes is a
    text, and the URL triple holds it. *)
Lemma url_triple_text d url_pred key row :
  notna (get row key) = true → url_ok key row = true →
  url_triple d url_pred key row = [(d, DCAT url_pred, URIRef (py_str (item row key)))].
Proof.
  intros Hk Hok. apply url_ok_text in Hok as [s Hs]; [|done].
  unfold url_triple. by rewrite Hs.
Qed.

Lemma distribution_triples_elem u suffix url_pred key row :
  notna (get row key) = true → url_ok key row = true →
  (dist_uri u suffix, RDF_type, DCAT "Distribution")
    ∈ distribution_triples u suffix url_pred key row
  ∧ (u, DCAT "distribution", dist_uri u suffix)
    ∈ distribution_triples u suffix url_pred key row
  ∧ (dist_uri u suffix, DCAT url_pred, URIRef (py_str (item row key)))
    ∈ distribution_triples u suffix url_pred key row.
Proof.
  intros Hk Hok. unfold distribution_triples.
  rewrite (url_triple_text _ _ _ _ Hk Hok), Hk. cbv zeta.
  rewrite !elem_of_app, !elem_of_cons. auto 10.
Qed.

Lemma distribution_link_cases `{R : Rdflib} idx row x :
  x ∈ dcat_triples idx row →
  predicate x = DCAT "distribution" →
  (x = (dataset_uri idx row, DCAT "distribution",
        dist_uri (dataset_uri idx row) "/distribution/api")
   ∧ notna (get row "datafile_url") = true)
  ∨ (x = (dataset_uri idx row, DCAT "distribution",
          dist_uri (dataset_uri idx row) "/distribution/file")
     ∧ notna (get row "datafile") = true).
Proof. intros H Hp. triple_cases H; subst x; try discriminate; auto. Qed.

Lemma dcat_triples_distribution `{R : Rdflib} idx row :
  (notna (get row "datafile_url") = true →
   ∀ x, x ∈ distribution_triples (dataset_uri idx row) "/distribution/api"
              "accessURL" "datafile_url" row → x ∈ dcat_triples idx row)
  ∧ (notna (get row "datafile") = true →
     ∀ x, x ∈ distribution_triples (dataset_uri idx row) "/distribution/file"
                "downloadURL" "datafile" row → x ∈ dcat_triples idx row).
Proof.
  split; intros _ x Hx; apply elem_of_dcat_triples; auto.
Qed.

Lemma row_ok_urls row :
  row_ok row = true →
  url_ok "datafile_url" row = true ∧ url_ok "datafile" row = true.
Proof. unfold row_ok. by intros ?%andb_prop. Qed.

Lemma dcat_graph_row_ok `{R : Rdflib} df g rs i row :
  create_dcat_graph df = Some (g, rs) → df !! i = Some row → row_ok row = true.
Proof. intros (Hok & _)%create_dcat_graph_Some. by apply row_ok_lookup. Qed.

(** In a graph the DCAT builder returns every resource of type
    Distribution is the distribution of a dataset that the graph types as
    a Dataset, and has an access URL or a download URL; and every
    distribution link goes from a typed Dataset to a typed Distribution. *)
Theorem distributions_are_linked `{R : Rdflib}
  (df : DataFrame) (g : Graph) (rs : list Dcat.record) :
  create_dcat_graph df = Some (g, rs) →
  (∀ d, (d, RDF_type, DCAT "Distribution") ∈ g →
     ∃ u, (u, RDF_type, DCAT "Dataset") ∈ g
        ∧ (u, DCAT "distribution", d) ∈ g
        ∧ ((∃ o, (d, DCAT "accessURL", o) ∈ g) ∨ (∃ o, (d, DCAT "downloadURL", o) ∈ g)))
  ∧ (∀ u d, (u, DCAT "distribution", d) ∈ g →
       (u, RDF_type, DCAT "Dataset") ∈ g ∧ (d, RDF_type, DCAT "Distribution") ∈ g).
Proof.
  intros Hg.
  assert (Hel : ∀ x, x ∈ g ↔ ∃ i row, df !! i = Some row ∧ x ∈ dcat_triples i row)
    by (intros x; by apply (elem_of_dcat_graph df g rs)).
  split.
  - intros d (i & row & Hi & H)%Hel.
    destruct (row_ok_urls row (dcat_graph_row_ok df g rs i row Hg Hi)) as [Hok1 Hok2].
    exists (dataset_uri i row).
    split; [by apply (dataset_type_in_dcat_graph df g rs)|].
    apply distribution_type_cases in H as [[[= ->] Hk]|[[= ->] Hk]]; try done.
    + destruct (distribution_triples_elem (dataset_uri i row) "/distribution/api"
                  "accessURL" "datafile_url" row Hk Hok1) as (_ & H2 & H3).
      destruct (dcat_triples_distribution i row) as [Hin _].
      split; [|left; eexists]; apply Hel; exists i, row;
        (split; [done|]); apply (Hin Hk); [exact H2 | exact H3].
    + destruct (distribution_triples_elem (dataset_uri i row) "/distribution/file"
                  "downloadURL" "datafile" row Hk Hok2) as (_ & H2 & H3).
      destruct (dcat_triples_distribution i row) as [_ Hin].
      split; [|right; eexists]; apply Hel; exists i, row;
        (split; [done|]); apply (Hin Hk); [exact H2 | exact H3].
  - intros u d (i & row & Hi & H)%Hel.
    destruct (row_ok_urls row (dcat_graph_row_ok df g rs i row Hg Hi)) as [Hok1 Hok2].
    apply distribution_link_cases in H as [[[= -> ->] Hk]|[[= -> ->] Hk]]; try done.
    + split; [by apply (dataset_type_in_dcat_graph df g rs)|].
      apply Hel. exists i, row. split; [done|].
      apply (proj1 (dcat_triples_distribution i row) Hk).
      by apply distribution_triples_elem.
    + split; [by apply (dataset_type_in_dcat_graph df g rs)|].
      apply Hel. exists i, row. split; [done|].
      apply (proj2 (dcat_triples_distribution i row) Hk).
      by apply distribution_triples_elem.
Qed.

Lemma distributions_are_linked_witness :
  let row : Row :=
    {[ "node_alias" := VStr "/catalog/rainfall"; "datafile" := VStr "rainfall.csv" ]} in
  let d := URIRef "https://data.gov.in/catalog/rainfall/distribution/file" in
  notna (get row "datafile") = true
  ∧ (∀ R : Rdflib, ∃ g rs,
       create_dcat_graph [row] = Some (g, rs)
       ∧ (d, RDF_type, DCAT "Distribution") ∈ g
       ∧ ∃ u, (u, DCAT "distribution", d) ∈ g).
Proof.
  intros row d. split; [reflexivity|]. intros R.
  eexists _, _. split; [vm_compute; reflexivity|].
  match goal with |- ?x ∈ ?g ∧ _ => assert (Hd : x ∈ g) end.
  { do 2 apply list_elem_of_further. apply list_elem_of_here. }
  split; [exact Hd|].
  destruct (proj1 (distributions_are_linked [row] _ _ eq_refl) d Hd) as (u & _ & Hu & _).
  exists u. exact Hu.
Defined.

Lemma format_cases `{R : Rdflib} idx row x :
  x ∈ dcat_triples idx row →
  predicate x = DCT "format" ∨ predicate x = DCAT "mediaType" →
  notna (get row "file_format") = true
  ∧ object x = Literal (item row "file_format") None
  ∧ ((subject x = dist_uri (dataset_uri idx row) "/distribution/api"
      ∧ notna (get row "datafile_url") = true)
     ∨ (subject x = dist_uri (dataset_uri idx row) "/distribution/file"
        ∧ notna (get row "datafile") = true)).
Proof.
  intros H [Hp|Hp]; triple_cases H; subst x; try discriminate; auto.
Qed.

Lemma format_elem `{R : Rdflib} idx row suffix url_pred key p :
  (suffix, url_pred, key) = ("/distribution/api", "accessURL", "datafile_url")
  ∨ (suffix, url_pred, key) = ("/distribution/file", "downloadURL", "datafile") →
  p = DCT "format" ∨ p = DCAT "mediaType" →
  notna (get row key) = true →
  notna (get row "file_format") = true →
  (dist_uri (dataset_uri idx row) suffix, p, Literal (item row "file_format") None)
  ∈ dcat_triples idx row.
Proof.
  intros Hk Hp Hkey Hfmt. apply elem_of_dcat_triples.
  destruct Hk as [[= -> -> ->]|[= -> -> ->]]; [do 3 right; left | do 4 right];
    unfold distribution_triples, format_triples; rewrite Hkey, Hfmt; cbv zeta;
    rewrite !elem_of_app, !elem_of_cons; destruct Hp as [-> | ->]; auto 10.
Qed.

(** The format of a distribution is given twice: a graph the DCAT builder
    returns holds a format triple exactly when it holds the media-type
    triple with the same subject and the same object. *)
Theorem format_and_media_type_agree `{R : Rdflib}
  (df : DataFrame) (g : Graph) (rs : list Dcat.record) (d o : term) :
  create_dcat_graph df = Some (g, rs) →
  (d, DCT "format", o) ∈ g ↔ (d, DCAT "mediaType", o) ∈ g.
Proof.
  intros Hg.
  assert (Hel : ∀ x, x ∈ g ↔ ∃ i row, df !! i = Some row ∧ x ∈ dcat_triples i row)
    by (intros x; by apply (elem_of_dcat_graph df g rs)).
  rewrite !Hel.
  split; intros (i & row & Hi & H); exists i, row; (split; [done|]).
  - apply format_cases in H as (Hfmt & Ho & Hs); [|by left].
    unfold object, subject in *; cbn [fst snd] in *. subst o.
    destruct Hs as [[-> Hk]|[-> Hk]]; eapply format_elem; eauto.
  - apply format_cases in H as (Hfmt & Ho & Hs); [|by right].
    unfold object, subject in *; cbn [fst snd] in *. subst o.
    destruct Hs as [[-> Hk]|[-> Hk]]; eapply format_elem; eauto.
Qed.

Lemma format_and_media_type_agree_witness :
  let row : Row :=
    {[ "node_alias" := VStr "/catalog/rainfall"; "datafile" := VStr "rainfall.csv";
       "file_format" := VStr "CSV" ]} in
  let d := URIRef "https://data.gov.in/catalog/rainfall/distribution/file" in
  notna (get row "file_format") = true
  ∧ (∀ R : Rdflib, ∃ g rs,
       create_dcat_graph [row] = Some (g, rs)
       ∧ (d, DCT "format", Literal (VStr "CSV") None) ∈ g
       ∧ (d, DCAT "mediaType", Literal (VStr "CSV") None) ∈ g).
Proof.
  intros row d. split; [reflexivity|]. intros R.
  eexists _, _. split; [vm_compute; reflexivity|].
  match goal with |- ?x ∈ ?g ∧ _ => assert (Hd : x ∈ g) end.
  { do 5 apply list_elem_of_further. apply list_elem_of_here. }
  split; [exact Hd|].
  exact (proj1 (format_and_media_type_agree [row] _ _ d _ eq_refl) Hd).
Defined.

Lemma byte_size_cases `{R : Rdflib} idx row x :
  x ∈ dcat_triples idx row →
  predicate x = DCAT "byteSize" →
  ∃ size, py_int (item row "file_size") = Some size
    ∧ notna (get row "file_size") = true
    ∧ object x = Literal (VInt size) (Some XSD_integer)
    ∧ ((subject x = dist_uri (dataset_uri idx row) "/distribution/api"
        ∧ notna (get row "datafile_url") = true)
       ∨ (subject x = dist_uri (dataset_uri idx row) "/distribution/file"
          ∧ notna (get row "datafile") = true)).
Proof.
  intros H Hp. triple_cases H; subst x; try discriminate; eexists; eauto 10.
Qed.

(** A byte size in a graph the DCAT builder returns is always an integer
    literal on a typed Distribution, the integer [int] reads from the row's
    [file_size]; and when [file_size] is present and [int] reads it, each
    distribution of the row gets it. *)
Theorem byte_size_is_integer `{R : Rdflib}
  (df : DataFrame) (g : Graph) (rs : list Dcat.record) :
  create_dcat_graph df = Some (g, rs) →
  (∀ x, x ∈ g → predicate x = DCAT "byteSize" →
     ∃ i row size, df !! i = Some row
       ∧ py_int (get row "file_size") = Some size
       ∧ object x = Literal (VInt size) (Some XSD_integer)
       ∧ (subject x, RDF_type, DCAT "Distribution") ∈ g)
  ∧ (∀ i row size, df !! i = Some row →
       notna (get row "file_size") = true →
       py_int (get row "file_size") = Some size →
       (notna (get row "datafile_url") = true →
        (dist_uri (dataset_uri i row) "/distribution/api", DCAT "byteSize",
         Literal (VInt size) (Some XSD_integer)) ∈ g)
       ∧ (notna (get row "datafile") = true →
          (dist_uri (dataset_uri i row) "/distribution/file", DCAT "byteSize",
           Literal (VInt size) (Some XSD_integer)) ∈ g)).
Proof.
  intros Hg.
  assert (Hel : ∀ x, x ∈ g ↔ ∃ i row, df !! i = Some row ∧ x ∈ dcat_triples i row)
    by (intros x; by apply (elem_of_dcat_graph df g rs)).
  split.
  - intros x (i & row & Hi & H)%Hel Hp.
    destruct (row_ok_urls row (dcat_graph_row_ok df g rs i row Hg Hi)) as [Hok1 Hok2].
    destruct (byte_size_cases i row x H Hp) as (size & Hint & _ & Ho & Hs).
    exists i, row, size. split_and!; try done.
    apply Hel. exists i, row. split; [done|].
    destruct Hs as [[-> Hk]|[-> Hk]].
    + apply (proj1 (dcat_triples_distribution i row) Hk).
      by apply distribution_triples_elem.
    + apply (proj2 (dcat_triples_distribution i row) Hk).
      by apply distribution_triples_elem.
  - intros i row size Hi Hsize Hint.
    split; intros Hk; apply Hel; exists i, row; (split; [done|]).
    + apply (proj1 (dcat_triples_distribution i row) Hk).
      unfold distribution_triples, size_triple. rewrite Hk, Hsize. cbv zeta.
      unfold item. rewrite Hint. rewrite !elem_of_app, !elem_of_cons. auto 10.
    + apply (proj2 (dcat_triples_distribution i row) Hk).
      unfold distribution_triples, size_triple. rewrite Hk, Hsize. cbv zeta.
      unfold item. rewrite Hint. rewrite !elem_of_app, !elem_of_cons. auto 10.
Qed.

Lemma byte_size_is_integer_witness :
  let row : Row :=
    {[ "node_alias" := VStr "/catalog/rainfall"; "datafile" := VStr "rainfall.csv";
       "file_size" := VStr " 2_048 " ]} in
  py_int (get row "file_size") = Some 2048
  ∧ (∀ R : Rdflib, ∃ g rs,
       create_dcat_graph [row] = Some (g, rs)
       ∧ (URIRef "https://data.gov.in/catalog/rainfall/distribution/file",
          DCAT "byteSize", Literal (VInt 2048) (Some XSD_integer)) ∈ g).
Proof.
  intros row. split; [reflexivity|]. intros R.
  eexists _, _. split; [vm_compute; reflexivity|].
  exact (proj2 (proj2 (byte_size_is_integer [row] _ _ eq_refl) 0%nat row 2048
                  eq_refl eq_refl eq_refl) eq_refl).
Defined.

Lemma elem_of_dcat_records `{R : Rdflib} df g rs r :
  create_dcat_graph df = Some (g, rs) →
  r ∈ rs ↔ ∃ i row, df !! i = Some row ∧ r ∈ dcat_records i row.
Proof. intros (_ & _ & ->)%create_dcat_graph_Some. apply elem_of_rows_from. Qed.

Lemma dcat_records_cases idx row r :
  r ∈ dcat_records idx row →
  (r = api_record idx row ∧ notna (get row "datafile_url") = true)
  ∨ (r = file_record idx row ∧ notna (get row "datafile") = true).
Proof.
  unfold dcat_records. rewrite elem_of_app.
  destruct (notna (get row "datafile_url")), (notna (get row "datafile"));
    rewrite ?list_elem_of_singleton, ?elem_of_nil; intros [H|H]; auto; done.
Qed.

(** The flat records and the graph that the DCAT builder returns describe
    the same distributions: each record has its distribution typed in the
    graph and linked from its dataset, an API record with its access URL
    and no download URL, a File record with its download URL and no access
    URL; and every typed Distribution of the graph has a record. *)
Theorem dcat_records_mirror_graph `{R : Rdflib}
  (df : DataFrame) (g : Graph) (rs : list Dcat.record) :
  create_dcat_graph df = Some (g, rs) →
  (∀ r, r ∈ rs →
     (URIRef (Dcat.distribution_uri r), RDF_type, DCAT "Distribution") ∈ g
     ∧ (URIRef (Dcat.dataset_uri r), DCAT "distribution",
        URIRef (Dcat.distribution_uri r)) ∈ g
     ∧ ((Dcat.distribution_type r = "API" ∧ Dcat.downloadURL r = VNone
         ∧ notna (Dcat.accessURL r) = true
         ∧ (URIRef (Dcat.distribution_uri r), DCAT "accessURL",
            URIRef (py_str (Dcat.accessURL r))) ∈ g)
        ∨ (Dcat.distribution_type r = "File" ∧ Dcat.accessURL r = VNone
           ∧ notna (Dcat.downloadURL r) = true
           ∧ (URIRef (Dcat.distribution_uri r), DCAT "downloadURL",
              URIRef (py_str (Dcat.downloadURL r))) ∈ g)))
  ∧ (∀ d, (d, RDF_type, DCAT "Distribution") ∈ g →
       ∃ r, r ∈ rs ∧ d = URIRef (Dcat.distribution_uri r)).
Proof.
  intros Hg.
  assert (Hel : ∀ x, x ∈ g ↔ ∃ i row, df !! i = Some row ∧ x ∈ dcat_triples i row)
    by (intros x; by apply (elem_of_dcat_graph df g rs)).
  split.
  - intros r (i & row & Hi & Hr)%(elem_of_dcat_records df g rs r Hg).
    destruct (row_ok_urls row (dcat_graph_row_ok df g rs i row Hg Hi)) as [Hok1 Hok2].
    assert (Hin : ∀ x, x ∈ dcat_triples i row → x ∈ g)
      by (intros x Hx; apply Hel; eauto).
    apply dcat_records_cases in Hr as [[-> Hk]|[-> Hk]];
      cbn [api_record file_record Dcat.distribution_uri Dcat.dataset_uri
           Dcat.distribution_type Dcat.accessURL Dcat.downloadURL];
      rewrite dataset_uri_term_str.
    + destruct (distribution_triples_elem (dataset_uri i row) "/distribution/api"
                  "accessURL" "datafile_url" row Hk Hok1) as (H1 & H2 & H3).
      pose proof (proj1 (dcat_triples_distribution i row) Hk) as Hd.
      split_and!; [by apply Hin, Hd | by apply Hin, Hd |].
      left. split_and!; try done. by apply Hin, Hd.
    + destruct (distribution_triples_elem (dataset_uri i row) "/distribution/file"
                  "downloadURL" "datafile" row Hk Hok2) as (H1 & H2 & H3).
      pose proof (proj2 (dcat_triples_distribution i row) Hk) as Hd.
      split_and!; [by apply Hin, Hd | by apply Hin, Hd |].
      right. split_and!; try done. by apply Hin, Hd.
  - intros d (i & row & Hi & H)%Hel.
    apply distribution_type_cases in H as [[[= ->] Hk]|[[= ->] Hk]]; try done.
    + exists (api_record i row). split; [|done].
      apply (elem_of_dcat_records df g rs _ Hg). exists i, row. split; [done|].
      unfold dcat_records. rewrite Hk. apply elem_of_app. left.
      by apply list_elem_of_singleton.
    + exists (file_record i row). split; [|done].
      apply (elem_of_dcat_records df g rs _ Hg). exists i, row. split; [done|].
      unfold dcat_records. rewrite Hk. apply elem_of_app. right.
      by apply list_elem_of_singleton.
Qed.

Lemma dcat_records_mirror_graph_witness :
  let row : Row :=
    {[ "node_alias" := VStr "/catalog/rainfall"; "datafile" := VStr "rainfall.csv" ]} in
  notna (get row "datafile") = true
  ∧ (∀ R : Rdflib, ∃ g rs,
       create_dcat_graph [row] = Some (g, rs)
       ∧ file_record 0 row ∈ rs
       ∧ (URIRef "https://data.gov.in/catalog/rainfall/distribution/file",
          DCAT "downloadURL", URIRef "rainfall.csv") ∈ g).
Proof.
  intros row. split; [reflexivity|]. intros R.
  eexists _, _. split; [vm_compute; reflexivity|].
  match goal with |- ?r ∈ ?rs ∧ _ => assert (Hr : r ∈ rs) end.
  { vm_compute. apply list_elem_of_here. }
  split; [exact Hr|].
  destruct (proj1 (dcat_records_mirror_graph [row] _ _ eq_refl) _ Hr)
    as (_ & _ & [(H & _)|(_ & _ & _ & H)]).
  - discriminate H.
  - exact H.
Defined.

(** ** Frequencies in the graphs *)

(** Normalizing a frequency twice changes nothing more: the result of
    [normalize_frequency], given back to it as a text, comes out as it went
    in. *)
Theorem normalize_frequency_idempotent (v : value) (r : string) :
  normalize_frequency v = Some r → normalize_frequency (VStr r) = Some r.
Proof.
  unfold normalize_frequency at 1. destruct (notna v); [|done].
  cbv zeta. intros H. apply (inj Some) in H. subst r.
  pose proof (strip_lower_idemp (py_str v)) as Hk.
  revert Hk. generalize (PyStr.strip (PyStr.lower (py_str v))). intros k Hk.
  unfold freq_mapping. cbn [dict_get].
  repeat match goal with
         | |- context [String.eqb ?a k] =>
             destruct (String.eqb_spec a k) as [<-|?]; [reflexivity|]
         end.
  unfold normalize_frequency, notna, py_str. cbv zeta. rewrite Hk.
  unfold freq_mapping. cbn [dict_get].
  repeat match goal with
         | |- context [String.eqb ?a k] =>
             destruct (String.eqb_spec a k) as [<-|?]; [done|]
         end.
  done.
Qed.

Lemma normalize_frequency_idempotent_witness :
  normalize_frequency (VStr " Half-Yearly ") = Some "half-yearly"
  ∧ normalize_frequency (VStr "half-yearly") = Some "half-yearly".
Proof.
  split; [reflexivity|].
  exact (normalize_frequency_idempotent (VStr " Half-Yearly ") "half-yearly" eq_refl).
Defined.

Lemma frequency_triple_cases u row x :
  x ∈ frequency_triple u row →
  ∃ s, normalize_frequency (get row "frequency") = Some s ∧ s ≠ ""
     ∧ ((PyStr.startswith "http" s = true
         ∧ x = (u, DCT "accrualPeriodicity", URIRef s))
        ∨ (PyStr.startswith "http" s = false
           ∧ x = (u, DCT "accrualPeriodicity", Literal (VStr s) None))).
Proof.
  unfold frequency_triple. cbv zeta.
  destruct (truthy (normalize_frequency (get row "frequency"))) eqn:Ht;
    [|by intros ?%elem_of_nil].
  apply truthy_iff in Ht as (s & -> & Hs). cbn [opt_val from_option py_str].
  intros H. exists s. split; [done|]. split; [done|].
  destruct (PyStr.startswith "http" s); apply list_elem_of_singleton in H; auto.
Qed.

Lemma frequency_cases `{R : Rdflib} idx row x :
  x ∈ dublin_core_triples idx row ∨ x ∈ dcat_triples idx row →
  predicate x = DCT "accrualPeriodicity" →
  x ∈ frequency_triple (dataset_uri idx row) row.
Proof.
  intros [H|H] Hp.
  - apply elem_of_dublin_core_triples in H as [H|[H|H]].
    + unfold shared_triples in H. rewrite !elem_of_app in H.
      destruct H as [H|[H|[H|[H|[H|[H|H]]]]]]; try done;
        unfold title_triple, description_triple, date_triple, publisher_triple,
          landing_triple in H; cbv zeta in H; case_match;
        try (by apply elem_of_nil in H);
        apply list_elem_of_singleton in H; by subst x.
    + apply date_triple_predicate in H. rewrite H in Hp. discriminate.
    + apply sector_triples_predicate in H. rewrite H in Hp. discriminate.
  - apply elem_of_dcat_triples in H as [->|[H|[H|[H|H]]]]; [done| | |..].
    + unfold shared_triples in H. rewrite !elem_of_app in H.
      destruct H as [H|[H|[H|[H|[H|[H|H]]]]]]; try done;
        unfold title_triple, description_triple, date_triple, publisher_triple,
          landing_triple in H; cbv zeta in H; case_match;
        try (by apply elem_of_nil in H);
        apply list_elem_of_singleton in H; by subst x.
    + apply sector_triples_predicate in H. rewrite H in Hp. discriminate.
    + apply distribution_triples_predicate in H. rewrite Hp in H.
      repeat (apply elem_of_cons in H as [H|H]; [discriminate|]).
      by apply elem_of_nil in H.
    + apply distribution_triples_predicate in H. rewrite Hp in H.
      repeat (apply elem_of_cons in H as [H|H]; [discriminate|]).
      by apply elem_of_nil in H.
Qed.

(** The object of a frequency triple, in either graph, is a URI reference
    whose text starts with http, or a plain literal of a non-empty text
    that does not; a cell that normalizes to one of the five keys of the
    vocabulary always gives the URI reference of that key. *)
Theorem frequency_object_kind `{R : Rdflib} (df : DataFrame) :
  (∀ x, x ∈ (create_dublin_core_graph df).1
        ∨ (∃ g rs, create_dcat_graph df = Some (g, rs) ∧ x ∈ g) →
     predicate x = DCT "accrualPeriodicity" →
     ∃ s, s ≠ ""
       ∧ ((PyStr.startswith "http" s = true ∧ object x = URIRef s)
          ∨ (PyStr.startswith "http" s = false ∧ object x = Literal (VStr s) None)))
  ∧ (∀ i row key uri, df !! i = Some row →
       notna (get row "frequency") = true →
       (key, uri) ∈ freq_mapping →
       PyStr.strip (PyStr.lower (py_str (get row "frequency"))) = key →
       (dataset_uri i row, DCT "accrualPeriodicity", URIRef uri)
         ∈ (create_dublin_core_graph df).1
       ∧ ∀ g rs, create_dcat_graph df = Some (g, rs) →
           (dataset_uri i row, DCT "accrualPeriodicity", URIRef uri) ∈ g).
Proof.
  split.
  - intros x Hx Hp.
    assert (∃ i row, x ∈ frequency_triple (dataset_uri i row) row) as (i & row & H).
    { destruct Hx as [(i & row & _ & H)%elem_of_dublin_core_graph
                     |(g & rs & Hg & (i & row & _ & H)%(elem_of_dcat_graph df g rs x Hg))];
        exists i, row; apply frequency_cases; auto. }
    apply frequency_triple_cases in H as (s & _ & Hs & [[Hh ->]|[Hh ->]]);
      exists s; auto.
  - intros i row key uri Hi Hna Hkey Hk.
    assert (H : (dataset_uri i row, DCT "accrualPeriodicity", URIRef uri)
                ∈ frequency_triple (dataset_uri i row) row).
    { unfold frequency_triple, normalize_frequency. rewrite Hna, Hk. cbv zeta.
      unfold freq_mapping in *.
      repeat (apply elem_of_cons in Hkey as [[= -> ->]|Hkey];
              [by apply list_elem_of_singleton|]).
      by apply elem_of_nil in Hkey. }
    split.
    + apply elem_of_dublin_core_graph. exists i, row. split; [done|].
      unfold dublin_core_triples. cbv zeta. rewrite !elem_of_app. auto 10.
    + intros g rs Hg. apply (elem_of_dcat_graph df g rs _ Hg).
      exists i, row. split; [done|].
      unfold dcat_triples. cbv zeta. rewrite !elem_of_app. auto 10.
Qed.

Lemma frequency_object_kind_witness :
  let row : Row :=
    {[ "node_alias" := VStr "/catalog/rainfall"; "frequency" := VStr " Yearly" ]} in
  (("yearly", "http://purl.org/cld/freq/annual") : string * string) ∈ freq_mapping
  ∧ (∀ R : Rdflib, ∃ g rs,
       create_dcat_graph [row] = Some (g, rs)
       ∧ (URIRef "https://data.gov.in/catalog/rainfall", DCT "accrualPeriodicity",
          URIRef "http://purl.org/cld/freq/annual") ∈ g).
Proof.
  intros row.
  assert (Hk : (("yearly", "http://purl.org/cld/freq/annual") : string * string)
               ∈ freq_mapping).
  { do 3 apply list_elem_of_further. apply list_elem_of_here. }
  split; [exact Hk|]. intros R.
  eexists _, _. split; [vm_compute; reflexivity|].
  exact (proj2 (proj2 (frequency_object_kind [row]) 0%nat row "yearly"
                  "http://purl.org/cld/freq/annual" eq_refl eq_refl Hk eq_refl)
           _ _ eq_refl).
Defined.

(** ** Day-first and month-first dates *)

Lemma year_digits y :
  1 ≤ y ≤ 9999 →
  ∃ a b c e, Strptime.pad 4 y = String a (String b (String c (String e "")))
    ∧ PyStr.is_digit a = true ∧ PyStr.is_digit b = true
    ∧ PyStr.is_digit c = true ∧ PyStr.is_digit e = true
    ∧ PyStr.to_int (Strptime.pad 4 y) = Some y.
Proof.
  intros Hy. pose proof (padded_year_ok_all y Hy) as H. unfold padded_year_ok in H.
  destruct (Strptime.pad 4 y) as [|a [|b [|c [|e [|]]]]]; try discriminate.
  apply andb_prop in H as [H Hiy]. apply andb_prop in H as [H He].
  apply andb_prop in H as [H Hc]. apply andb_prop in H as [Ha Hb].
  apply bool_decide_eq_true in Hiy. by exists a, b, c, e.
Qed.

Lemma year_re_match a b c e :
  PyStr.is_digit a = true → PyStr.is_digit b = true →
  PyStr.is_digit c = true → PyStr.is_digit e = true →
  Strptime.regex_match year_re (String a (String b (String c (String e ""))))
  = Some ([(Strptime.FYear, String a (String b (String c (String e ""))))], "").
Proof.
  intros Ha Hb Hc He. unfold year_re, Strptime.Y_alts.
  cbn [Strptime.regex_match Strptime.match_alt]. by rewrite Ha, Hb, Hc, He.
Qed.

Ltac enum H :=
  vm_compute in H;
  repeat (apply elem_of_cons in H as [->|H]); [..|by apply elem_of_nil in H].

Lemma day_month_prefix d m rest :
  1 ≤ d ≤ 31 → 1 ≤ m ≤ 12 →
  Strptime.regex_match day_month_re
    (Strptime.pad 2 d +:+ "/" +:+ Strptime.pad 2 m +:+ "/" +:+ rest)
  = Some ([(Strptime.FDay, Strptime.pad 2 d); (Strptime.FMonth, Strptime.pad 2 m)], rest)
  ∧ PyStr.to_int (Strptime.pad 2 d) = Some d
  ∧ PyStr.to_int (Strptime.pad 2 m) = Some m.
Proof.
  intros Hd Hm.
  assert (Hd' : d ∈ seqZ 1 31) by (apply elem_of_seqZ; lia).
  assert (Hm' : m ∈ seqZ 1 12) by (apply elem_of_seqZ; lia).
  clear Hd Hm. enum Hd'; enum Hm'; vm_compute; done.
Qed.

Lemma month_day_prefix d m rest :
  1 ≤ d ≤ 31 → 1 ≤ m ≤ 12 →
  Strptime.regex_match month_day_slash_re
    (Strptime.pad 2 m +:+ "/" +:+ Strptime.pad 2 d +:+ "/" +:+ rest)
  = Some ([(Strptime.FMonth, Strptime.pad 2 m); (Strptime.FDay, Strptime.pad 2 d)], rest).
Proof.
  intros Hd Hm.
  assert (Hd' : d ∈ seqZ 1 31) by (apply elem_of_seqZ; lia).
  assert (Hm' : m ∈ seqZ 1 12) by (apply elem_of_seqZ; lia).
  clear Hd Hm. enum Hd'; enum Hm'; vm_compute; done.
Qed.

Lemma day_month_rejects_late_day d m rest :
  13 ≤ d ≤ 31 → 1 ≤ m ≤ 12 →
  Strptime.regex_match day_month_re
    (Strptime.pad 2 m +:+ "/" +:+ Strptime.pad 2 d +:+ "/" +:+ rest) = None.
Proof.
  intros Hd Hm.
  assert (Hd' : d ∈ seqZ 13 19) by (apply elem_of_seqZ; lia).
  assert (Hm' : m ∈ seqZ 1 12) by (apply elem_of_seqZ; lia).
  clear Hd Hm. enum Hd'; enum Hm'; vm_compute; done.
Qed.

Lemma year_re_rejects_month m rest :
  1 ≤ m ≤ 12 →
  Strptime.regex_match year_re (Strptime.pad 2 m +:+ "/" +:+ rest) = None.
Proof.
  intros Hm.
  assert (Hm' : m ∈ seqZ 1 12) by (apply elem_of_seqZ; lia).
  clear Hm. enum Hm'; vm_compute; done.
Qed.

Lemma strptime_dmy y m d :
  1 ≤ y ≤ 9999 → 1 ≤ m ≤ 12 → 1 ≤ d ≤ 31 →
  Strptime.strptime (dmy y m d) "%d/%m/%Y" = Strptime.make_date y m d.
Proof.
  intros Hy Hm Hd.
  destruct (year_digits y Hy) as (a & b & c & e & Hpad & Ha & Hb & Hc & He & Hiy).
  destruct (day_month_prefix d m (Strptime.pad 4 y) Hd Hm) as (Hpre & Hid & Him).
  apply (strptime_from_match _ (day_month_re ++ year_re) _
           ([(Strptime.FDay, Strptime.pad 2 d); (Strptime.FMonth, Strptime.pad 2 m)]
            ++ [(Strptime.FYear, Strptime.pad 4 y)])).
  - reflexivity.
  - apply (regex_match_app_Some _ _ _ _ (Strptime.pad 4 y)); [exact Hpre|].
    rewrite Hpad. by apply year_re_match.
  - unfold Strptime.group_int. cbn [app Strptime.capture].
    repeat (case_decide; try done).
  - unfold Strptime.group_int. cbn [app Strptime.capture].
    repeat (case_decide; try done).
  - unfold Strptime.group_int. cbn [app Strptime.capture].
    repeat (case_decide; try done).
Qed.

Lemma strptime_mdy y m d :
  1 ≤ y ≤ 9999 → 1 ≤ m ≤ 12 → 1 ≤ d ≤ 31 →
  Strptime.strptime (mdy y m d) "%m/%d/%Y" = Strptime.make_date y m d.
Proof.
  intros Hy Hm Hd.
  destruct (year_digits y Hy) as (a & b & c & e & Hpad & Ha & Hb & Hc & He & Hiy).
  destruct (day_month_prefix d m (Strptime.pad 4 y) Hd Hm) as (_ & Hid & Him).
  pose proof (month_day_prefix d m (Strptime.pad 4 y) Hd Hm) as Hpre.
  apply (strptime_from_match _ (month_day_slash_re ++ year_re) _
           ([(Strptime.FMonth, Strptime.pad 2 m); (Strptime.FDay, Strptime.pad 2 d)]
            ++ [(Strptime.FYear, Strptime.pad 4 y)])).
  - reflexivity.
  - apply (regex_match_app_Some _ _ _ _ (Strptime.pad 4 y)); [exact Hpre|].
    rewrite Hpad. by apply year_re_match.
  - unfold Strptime.group_int. cbn [app Strptime.capture].
    repeat (case_decide; try done).
  - unfold Strptime.group_int. cbn [app Strptime.capture].
    repeat (case_decide; try done).
  - unfold Strptime.group_int. cbn [app Strptime.capture].
    repeat (case_decide; try done).
Qed.

Lemma strptime_mdy_late_day y m d :
  1 ≤ m ≤ 12 → 13 ≤ d ≤ 31 →
  Strptime.strptime (mdy y m d) "%d/%m/%Y" = None
  ∧ Strptime.strptime (mdy y m d) "%Y-%m-%d" = None.
Proof.
  intros Hm Hd. split.
  - apply (strptime_no_match _ (day_month_re ++ year_re)); [reflexivity|].
    apply regex_match_app_None. by apply day_month_rejects_late_day.
  - apply (strptime_no_match _ (year_re ++ month_day_re)); [reflexivity|].
    apply regex_match_app_None. by apply year_re_rejects_month.
Qed.

Lemma make_date_exchange y m d dt :
  Strptime.make_date y m d = Some dt → d ≤ 12 →
  Strptime.make_date y d m = Some (Strptime.Date y d m).
Proof.
  intros H Hd. destruct (make_date_Some _ _ _ _ H) as (_ & Hy & Hm & Hd').
  unfold Strptime.make_date.
  assert (28 ≤ Strptime.days_in_month y d)
    by (unfold Strptime.days_in_month; repeat case_match; lia).
  case_match eqn:Hc; [done|].
  repeat (apply andb_false_iff in Hc as [Hc|Hc]); lia.
Qed.

Lemma pad_2_inj m d :
  1 ≤ m ≤ 12 → 1 ≤ d ≤ 12 → Strptime.pad 2 m = Strptime.pad 2 d → m = d.
Proof.
  intros Hm Hd.
  assert (Hm' : m ∈ seqZ 1 12) by (apply elem_of_seqZ; lia).
  assert (Hd' : d ∈ seqZ 1 12) by (apply elem_of_seqZ; lia).
  clear Hm Hd. enum Hm'; enum Hd'; vm_compute; congruence.
Qed.

Lemma pad_2_length m : 1 ≤ m ≤ 31 → String.length (Strptime.pad 2 m) = 2%nat.
Proof.
  intros Hm. assert (Hm' : m ∈ seqZ 1 31) by (apply elem_of_seqZ; lia).
  clear Hm. enum Hm'; reflexivity.
Qed.

Lemma string_app_inj_length (a b s t : string) :
  String.length a = String.length b → a +:+ s = b +:+ t → a = b.
Proof.
  revert b. induction a as [|c a IH]; intros [|c' b]; simpl; try done.
  intros [= Hl] [= -> Heq]. f_equal. by apply IH.
Qed.

(** A date written day/month/year in two, two and four digits is read
    day-first whenever it names a day of the calendar: [parse_date] gives
    the year in as many digits as it has, four from the year 1000 on, then
    the month and the day in two digits.  A text that was meant
    month/day/year and whose day is at most 12 is read day-first all the
    same: what comes back has month and day exchanged, another date
    unless the two are equal. *)
Theorem parse_date_day_first (y m d : Z) (dt : Strptime.date) :
  Strptime.make_date y m d = Some dt →
  parse_date (VStr (dmy y m d))
  = Some (pretty y +:+ "-" +:+ Strptime.pad 2 m +:+ "-" +:+ Strptime.pad 2 d)
  ∧ (1000 ≤ y → pretty y = Strptime.pad 4 y)
  ∧ (d ≤ 12 →
     parse_date (VStr (mdy y m d))
     = Some (pretty y +:+ "-" +:+ Strptime.pad 2 d +:+ "-" +:+ Strptime.pad 2 m)
     ∧ (m ≠ d →
        parse_date (VStr (mdy y m d))
        ≠ Some (pretty y +:+ "-" +:+ Strptime.pad 2 m +:+ "-" +:+ Strptime.pad 2 d))).
Proof.
  intros H. destruct (make_date_Some _ _ _ _ H) as (-> & Hy & Hm & Hd).
  assert (Hp : ∀ m d, 1 ≤ m ≤ 12 → 1 ≤ d ≤ 31 →
            Strptime.make_date y m d = Some (Strptime.Date y m d) →
            parse_date (VStr (dmy y m d))
            = Some (pretty y +:+ "-" +:+ Strptime.pad 2 m +:+ "-"
                    +:+ Strptime.pad 2 d)).
  { intros m' d' Hm' Hd' H'.
    unfold parse_date, date_formats. cbn [isna notna negb py_str try_formats].
    by rewrite (strptime_dmy y m' d' Hy Hm' Hd'), H'. }
  split_and!.
  - by apply Hp.
  - intros Hbig. assert (Hyear := year_ok_all y ltac:(lia)). unfold year_ok in Hyear.
    unfold Strptime.pad. cbv zeta.
    by destruct (pretty y) as [|a [|b [|c [|e [|]]]]].
  - intros Hd12.
    assert (Hswap : parse_date (VStr (mdy y m d))
              = Some (pretty y +:+ "-" +:+ Strptime.pad 2 d +:+ "-"
                      +:+ Strptime.pad 2 m)).
    { apply (Hp d m); [lia|lia|]. by apply (make_date_exchange y m d _ H). }
    split; [exact Hswap|]. intros Hne. rewrite Hswap. intros [= Heq].
    apply (string_app_inj (pretty y)) in Heq. apply (string_app_inj "-") in Heq.
    apply (string_app_inj_length (Strptime.pad 2 d) (Strptime.pad 2 m)) in Heq.
    + apply pad_2_inj in Heq; [congruence|lia..].
    + rewrite !pad_2_length; [done|lia..].
Qed.

Lemma parse_date_day_first_witness :
  Strptime.make_date 2020 4 3 = Some (Strptime.Date 2020 4 3)
  ∧ parse_date (VStr "03/04/2020") = Some "2020-04-03"
  ∧ parse_date (VStr "04/03/2020") = Some "2020-03-04"
  ∧ parse_date (VStr "04/03/2020") ≠ Some "2020-04-03".
Proof.
  split; [reflexivity|].
  destruct (parse_date_day_first 2020 4 3 (Strptime.Date 2020 4 3) eq_refl)
    as (H1 & _ & H2).
  split; [exact H1|].
  destruct (H2 ltac:(lia)) as [H3 H4].
  split; [exact H3 | exact (H4 ltac:(lia))].
Defined.

(** A date written month/day/year in two, two and four digits is read
    month-first when its day is above 12, where day/month/year and
    year-month-day both fail: [parse_date] gives the year in as many digits
    as it has, then the month and the day in two digits. *)
Theorem parse_date_month_first_fallback (y m d : Z) (dt : Strptime.date) :
  Strptime.make_date y m d = Some dt →
  12 < d →
  parse_date (VStr (mdy y m d))
  = Some (pretty y +:+ "-" +:+ Strptime.pad 2 m +:+ "-" +:+ Strptime.pad 2 d).
Proof.
  intros H Hlate. destruct (make_date_Some _ _ _ _ H) as (-> & Hy & Hm & Hd).
  destruct (strptime_mdy_late_day y m d Hm ltac:(lia)) as [H1 H2].
  unfold parse_date, date_formats. cbn [isna notna negb py_str try_formats].
  by rewrite H1, H2, (strptime_mdy y m d Hy Hm Hd), H.
Qed.

Lemma parse_date_month_first_fallback_witness :
  Strptime.make_date 2020 12 31 = Some (Strptime.Date 2020 12 31)
  ∧ 12 < 31
  ∧ parse_date (VStr "12/31/2020") = Some "2020-12-31".
Proof.
  split; [reflexivity|]. split; [lia|].
  exact (parse_date_month_first_fallback 2020 12 31 (Strptime.Date 2020 12 31)
           eq_refl ltac:(lia)).
Defined.

(** [parse_date] is idempotent: what it returns, given back to it as a
    text, comes out unchanged, whether it was a date it wrote or a text it
    passed through. *)
Theorem parse_date_idempotent (v : value) (r : string) :
  parse_date v = Some r → parse_date (VStr r) = Some r.
Proof.
  unfold parse_date at 1. destruct (isna v); [done|].
  unfold date_formats. cbn [try_formats].
  destruct (Strptime.strptime (py_str v) "%d/%m/%Y") as [dt|] eqn:H1;
    [|destruct (Strptime.strptime (py_str v) "%Y-%m-%d") as [dt|] eqn:H2;
      [|destruct (Strptime.strptime (py_str v) "%m/%d/%Y") as [dt|] eqn:H3]];
    intros [= <-].
  - apply (parse_date_strftime_iso _ _ _ H1).
  - apply (parse_date_strftime_iso _ _ _ H2).
  - apply (parse_date_strftime_iso _ _ _ H3).
  - unfold parse_date, date_formats. cbn [isna notna negb py_str try_formats].
    by rewrite H1, H2, H3.
Qed.

Lemma parse_date_idempotent_witness :
  parse_date (VStr "3/4/2020") = Some "2020-04-03"
  ∧ parse_date (VStr "2020-04-03") = Some "2020-04-03".
Proof.
  split; [reflexivity|].
  exact (parse_date_idempotent (VStr "3/4/2020") "2020-04-03" eq_refl).
Defined.

(** ** Sectors *)

Lemma split_nonempty sep s : PyStr.split sep s ≠ [].
Proof.
  destruct s as [|c s]; simpl; [done|].
  destruct (Ascii.eqb c sep); [done|]. by destruct (PyStr.split sep s).
Qed.

Lemma join_split sep s : join sep (PyStr.split sep s) = s.
Proof.
  induction s as [|c s IH]; simpl; [done|].
  destruct (Ascii.eqb_spec c sep) as [->|Hne].
  - pose proof (split_nonempty sep s).
    destruct (PyStr.split sep s) as [|x l] eqn:Hs; [done|].
    change (join sep ("" :: x :: l)) with (String sep (join sep (x :: l))).
    by rewrite IH.
  - pose proof (split_nonempty sep s).
    destruct (PyStr.split sep s) as [|x l] eqn:Hs; [done|].
    rewrite <- IH. by destruct l.
Qed.

Lemma length_split sep s : length (PyStr.split sep s) = S (count_char sep s).
Proof.
  induction s as [|c s IH]; simpl; [done|].
  rewrite (Ascii.eqb_sym sep c).
  destruct (Ascii.eqb c sep); simpl; [by rewrite IH|].
  pose proof (split_nonempty sep s).
  destruct (PyStr.split sep s) as [|x l]; [done|]. simpl in *. done.
Qed.

Lemma split_pieces_free sep s p :
  p ∈ PyStr.split sep s → contains sep p = false.
Proof.
  revert p. induction s as [|c s IH]; intros p; simpl.
  - by intros ->%list_elem_of_singleton.
  - destruct (Ascii.eqb c sep) eqn:Hc.
    + intros [->|Hp]%elem_of_cons; [done|]. by apply IH.
    + pose proof (split_nonempty sep s).
      destruct (PyStr.split sep s) as [|x l]; [done|].
      intros [->|Hp]%elem_of_cons.
      * simpl. rewrite (Ascii.eqb_sym sep c), Hc. apply IH, list_elem_of_here.
      * apply IH. by apply list_elem_of_further.
Qed.

Lemma contains_lstrip c ws s :
  contains c s = false → contains c (PyStr.lstrip_with ws s) = false.
Proof.
  induction s as [|c' s IH]; simpl; [done|].
  intros [? ?]%orb_false_elim. destruct (ws c'); [by apply IH|].
  simpl. by apply orb_false_intro.
Qed.

Lemma contains_rstrip c ws s :
  contains c s = false → contains c (PyStr.rstrip_with ws s) = false.
Proof.
  induction s as [|c' s IH]; simpl; [done|].
  intros [Hc Hs]%orb_false_elim. specialize (IH Hs).
  destruct (PyStr.rstrip_with ws s); [destruct (ws c')|]; simpl in *;
    rewrite ?Hc; done.
Qed.

Lemma sector_triples_cases u p row x :
  x ∈ sector_triples u p row →
  notna (get row "sector") = true
  ∧ ∃ piece, piece ∈ PyStr.split ";" (py_str (get row "sector"))
      ∧ x = (u, p, Literal (VStr (PyStr.strip piece)) None).
Proof.
  unfold sector_triples, item. case_match; [|by intros ?%elem_of_nil].
  intros (piece & -> & Hp)%list_elem_of_fmap. eauto.
Qed.

Lemma sector_cases `{R : Rdflib} idx row x :
  (x ∈ dublin_core_triples idx row ∧ predicate x = DCT "subject" →
   x ∈ sector_triples (dataset_uri idx row) (DCT "subject") row)
  ∧ (x ∈ dcat_triples idx row ∧ predicate x = DCAT "theme" →
     x ∈ sector_triples (dataset_uri idx row) (DCAT "theme") row).
Proof.
  split; intros [H Hp].
  - apply elem_of_dublin_core_triples in H as [H|[H|H]]; [| |done].
    + exfalso. unfold shared_triples in H. triple_cases H; subst x; discriminate.
    + apply date_triple_predicate in H. rewrite H in Hp. discriminate.
  - apply elem_of_dcat_triples in H as [->|[H|[H|[H|H]]]]; [done| |done|..].
    + exfalso. unfold shared_triples in H. triple_cases H; subst x; discriminate.
    + apply distribution_triples_predicate in H. rewrite Hp in H.
      repeat (apply elem_of_cons in H as [H|H]; [discriminate|]).
      by apply elem_of_nil in H.
    + apply distribution_triples_predicate in H. rewrite Hp in H.
      repeat (apply elem_of_cons in H as [H|H]; [discriminate|]).
      by apply elem_of_nil in H.
Qed.

(** The sector text is cut at every semicolon, no piece lost: joining the
    pieces with semicolons gives the text back, and there is one piece more
    than there are semicolons.  Each subject of the Dublin Core graph and
    each theme of a graph the DCAT builder returns is a plain literal of a
    stripped piece, free of semicolons and of white space at its ends; the
    two graphs hold the same pieces for the same dataset. *)
Theorem sector_tokens `{R : Rdflib} (df : DataFrame) :
  (∀ s, join ";" (PyStr.split ";" s) = s
        ∧ length (PyStr.split ";" s) = S (count_char ";" s))
  ∧ (∀ x, (x ∈ (create_dublin_core_graph df).1 ∧ predicate x = DCT "subject")
          ∨ (∃ g rs, create_dcat_graph df = Some (g, rs)
               ∧ x ∈ g ∧ predicate x = DCAT "theme") →
       ∃ t, object x = Literal (VStr t) None
            ∧ PyStr.strip t = t ∧ contains ";" t = false)
  ∧ (∀ g rs, create_dcat_graph df = Some (g, rs) →
       ∀ u o, (u, DCT "subject", o) ∈ (create_dublin_core_graph df).1
              ↔ (u, DCAT "theme", o) ∈ g)
  ∧ (∀ i row piece, df !! i = Some row →
       notna (get row "sector") = true →
       piece ∈ PyStr.split ";" (py_str (get row "sector")) →
       (dataset_uri i row, DCT "subject", Literal (VStr (PyStr.strip piece)) None)
       ∈ (create_dublin_core_graph df).1).
Proof.
  split_and!.
  - intros s. split; [apply join_split | apply length_split].
  - intros x Hx.
    assert (∃ u p row, x ∈ sector_triples u p row) as (u & p & row & H).
    { destruct Hx as [[(i & row & _ & H)%elem_of_dublin_core_graph Hp]
                     |(g & rs & Hg & (i & row & _ & H)%(elem_of_dcat_graph df g rs x Hg)
                       & Hp)];
        do 2 eexists; exists row;
        [apply (proj1 (sector_cases i row x)) | apply (proj2 (sector_cases i row x))];
        done. }
    apply sector_triples_cases in H as (_ & piece & Hpiece & ->).
    exists (PyStr.strip piece). split_and!; [done| |].
    + apply (strip_with_idemp PyStr.is_space).
    + unfold PyStr.strip, PyStr.strip_with.
      by apply contains_rstrip, contains_lstrip, (split_pieces_free ";" _ _ Hpiece).
  - intros g rs Hg u o.
    rewrite elem_of_dublin_core_graph, (elem_of_dcat_graph df g rs _ Hg).
    split; intros (i & row & Hi & H); exists i, row; (split; [done|]).
    + pose proof (proj1 (sector_cases i row _) (conj H eq_refl)) as H'.
      apply sector_triples_cases in H' as (Hs & piece & Hp & [= -> ->]).
      apply elem_of_dcat_triples. do 2 right. left.
      unfold sector_triples, item. rewrite Hs. apply list_elem_of_fmap. eauto.
    + pose proof (proj2 (sector_cases i row _) (conj H eq_refl)) as H'.
      apply sector_triples_cases in H' as (Hs & piece & Hp & [= -> ->]).
      apply elem_of_dublin_core_triples. do 2 right.
      unfold sector_triples, item. rewrite Hs. apply list_elem_of_fmap. eauto.
  - intros i row piece Hi Hs Hp.
    apply elem_of_dublin_core_graph. exists i, row. split; [done|].
    apply elem_of_dublin_core_triples. do 2 right.
    unfold sector_triples, item. rewrite Hs. apply list_elem_of_fmap. eauto.
Qed.

Lemma sector_tokens_witness :
  let row : Row :=
    {[ "node_alias" := VStr "/catalog/rainfall";
       "sector" := VStr "Weather; Agriculture;" ]} in
  [row] !! 0%nat = Some row
  ∧ "" ∈ PyStr.split ";" (py_str (get row "sector"))
  ∧ (∀ R : Rdflib,
       (URIRef "https://data.gov.in/catalog/rainfall", DCT "subject",
        Literal (VStr "") None) ∈ (create_dublin_core_graph [row]).1
       ∧ ∃ g rs, create_dcat_graph [row] = Some (g, rs)
           ∧ (URIRef "https://data.gov.in/catalog/rainfall", DCAT "theme",
              Literal (VStr "") None) ∈ g).
Proof.
  intros row.
  assert (Hp : "" ∈ PyStr.split ";" (py_str (get row "sector"))).
  { vm_compute. do 2 apply list_elem_of_further. apply list_elem_of_here. }
  split; [reflexivity|]. split; [exact Hp|]. intros R.
  destruct (sector_tokens [row]) as (_ & _ & Hsame & Hin).
  pose proof (Hin 0%nat row "" eq_refl eq_refl Hp) as Hx.
  split; [exact Hx|].
  eexists _, _. split; [vm_compute; reflexivity|].
  exact (proj1 (Hsame _ _ eq_refl _ _) Hx).
Defined.

(** ** Vocabulary and composition *)

(** The graphs stay within their vocabularies: the predicate of a triple
    of the Dublin Core graph is one of nine, that of a triple of a graph
    the DCAT builder returns one of fifteen; the Dublin Core graph types
    nothing and has no distributions, and the DCAT graph has no created
    date and no subject. *)
Theorem predicates_are_closed `{R : Rdflib} (df : DataFrame) (x : triple) :
  (x ∈ (create_dublin_core_graph df).1 → predicate x ∈ dublin_core_predicates)
  ∧ (∀ g rs, create_dcat_graph df = Some (g, rs) →
       x ∈ g → predicate x ∈ dcat_predicates).
Proof.
  split.
  - intros (i & row & _ & H)%elem_of_dublin_core_graph.
    unfold dublin_core_predicates.
    triple_cases H; subst x; unfold predicate; cbn [fst snd];
      repeat first [apply list_elem_of_here | apply list_elem_of_further].
  - intros g rs Hg (i & row & _ & H)%(elem_of_dcat_graph df g rs x Hg).
    unfold dcat_predicates.
    triple_cases H; subst x; unfold predicate; cbn [fst snd];
      repeat first [apply list_elem_of_here | apply list_elem_of_further].
Qed.

Lemma predicates_are_closed_witness :
  let row : Row := {[ "node_alias" := VStr "/catalog/rainfall" ]} in
  let x := (URIRef "https://data.gov.in/catalog/rainfall", RDF_type, DCAT "Dataset") in
  [row] !! 0%nat = Some row
  ∧ (∀ R : Rdflib, ∃ g rs,
       create_dcat_graph [row] = Some (g, rs)
       ∧ x ∈ g ∧ predicate x ∈ dcat_predicates).
Proof.
  intros row x. split; [reflexivity|]. intros R.
  eexists _, _. split; [vm_compute; reflexivity|].
  match goal with |- x ∈ ?g ∧ _ => assert (Hx : x ∈ g) end.
  { apply list_elem_of_here. }
  split; [exact Hx|]. exact (proj2 (predicates_are_closed [row] x) _ _ eq_refl Hx).
Defined.

Lemma rows_from_app {B} (f : nat → Row → list B) df1 df2 idx :
  rows_from idx (df1 ++ df2) f
  = rows_from idx df1 f ++ rows_from (idx + length df1) df2 f.
Proof.
  revert idx. induction df1 as [|r df1 IH]; intros idx; simpl.
  - by rewrite Nat.add_0_r.
  - by rewrite IH, Nat.add_succ_r, (assoc_L (++)).
Qed.

Lemma views_without_index `{R : Rdflib} i j row :
  notna (row_get row "node_alias" (VStr "")) = true →
  dublin_core_triples i row = dublin_core_triples j row
  ∧ dublin_core_record i row = dublin_core_record j row
  ∧ dcat_triples i row = dcat_triples j row
  ∧ dcat_records i row = dcat_records j row.
Proof.
  intros Ha.
  assert (Hu : dataset_uri i row = dataset_uri j row)
    by (by rewrite !dataset_uri_present).
  unfold dublin_core_triples, dublin_core_record, dcat_triples, dcat_records,
    api_record, file_record. by rewrite Hu.
Qed.

Lemma rows_from_aliased {B} (f : nat → Row → list B) df i j :
  all_aliased df →
  (∀ row a b, notna (row_get row "node_alias" (VStr "")) = true → f a row = f b row) →
  rows_from i df f = rows_from j df f.
Proof.
  intros Hdf Hf. revert i j.
  induction Hdf as [|row df Hrow _ IH]; intros i j; simpl; [done|].
  by rewrite (Hf row i j Hrow), (IH (S i) (S j)).
Qed.

(** A table can be processed in two parts when every row of the second
    part has an alias, so that no URI depends on a row index: the flat
    records of the whole are those of the first part followed by those of
    the second, and the graph of the whole holds the triples of the two
    graphs.  The DCAT builder returns for the whole exactly when it returns
    for both parts. *)
Theorem builders_compose `{R : Rdflib} (df1 df2 : DataFrame) :
  all_aliased df2 →
  (create_dublin_core_graph (df1 ++ df2)).2
  = (create_dublin_core_graph df1).2 ++ (create_dublin_core_graph df2).2
  ∧ (∀ x, x ∈ (create_dublin_core_graph (df1 ++ df2)).1
          ↔ x ∈ (create_dublin_core_graph df1).1 ∨ x ∈ (create_dublin_core_graph df2).1)
  ∧ (is_Some (create_dcat_graph (df1 ++ df2))
     ↔ is_Some (create_dcat_graph df1) ∧ is_Some (create_dcat_graph df2))
  ∧ (∀ g1 rs1 g2 rs2,
       create_dcat_graph df1 = Some (g1, rs1) →
       create_dcat_graph df2 = Some (g2, rs2) →
       ∃ g, create_dcat_graph (df1 ++ df2) = Some (g, rs1 ++ rs2)
          ∧ ∀ x, x ∈ g ↔ x ∈ g1 ∨ x ∈ g2).
Proof.
  intros Hdf.
  assert (Hshift : ∀ {B} (f : nat → Row → list B),
            (∀ row i j, notna (row_get row "node_alias" (VStr "")) = true →
                        f i row = f j row) →
            rows_from 0 (df1 ++ df2) f = rows_from 0 df1 f ++ rows_from 0 df2 f).
  { intros B f Hf. rewrite rows_from_app. f_equal.
    apply rows_from_aliased; [done|]. intros; by apply Hf. }
  split_and!.
  - rewrite !dublin_core_graph_records. apply Hshift.
    intros row i j Ha. by destruct (views_without_index i j row Ha) as (_ & -> & _).
  - intros x. rewrite !dublin_core_graph_triples, !elem_of_graph_union.
    rewrite Hshift, elem_of_app, !elem_of_nil; [tauto|].
    intros row i j Ha. by destruct (views_without_index i j row Ha) as (-> & _).
  - rewrite !create_dcat_graph_eq, forallb_app.
    destruct (forallb row_ok df1), (forallb row_ok df2); simpl;
      split; try (by intros [[? [=]] _]); try (by intros [_ [? [=]]]);
      try (by intros [? [=]]); by eauto.
  - intros g1 rs1 g2 rs2 (Hok1 & -> & ->)%create_dcat_graph_Some
      (Hok2 & -> & ->)%create_dcat_graph_Some.
    rewrite create_dcat_graph_eq, forallb_app, Hok1, Hok2. simpl.
    eexists. split.
    + f_equal. f_equal. apply Hshift.
      intros row i j Ha.
      by destruct (views_without_index i j row Ha) as (_ & _ & _ & ->).
    + intros x. rewrite !elem_of_graph_union.
      rewrite Hshift, elem_of_app, !elem_of_nil; [tauto|].
      intros row i j Ha.
      by destruct (views_without_index i j row Ha) as (_ & _ & -> & _).
Qed.

Lemma builders_compose_witness :
  let r1 : Row := {[ "node_alias" := VNaN; "datafile" := VStr "a.csv" ]} in
  let r2 : Row := {[ "node_alias" := VStr "/catalog/rainfall";
                     "datafile" := VStr "rainfall.csv" ]} in
  all_aliased [r2]
  ∧ (∀ R : Rdflib, ∃ g1 rs1 g2 rs2 g,
       create_dcat_graph [r1] = Some (g1, rs1)
       ∧ create_dcat_graph [r2] = Some (g2, rs2)
       ∧ create_dcat_graph ([r1] ++ [r2]) = Some (g, rs1 ++ rs2)).
Proof.
  intros r1 r2.
  assert (H : all_aliased [r2]) by (constructor; [reflexivity|constructor]).
  split; [exact H|]. intros R.
  destruct (builders_compose [r1] [r2] H) as (_ & _ & _ & Hd).
  destruct (Hd _ _ _ _ eq_refl eq_refl) as (g & Hg & _).
  eexists _, _, _, _, g. split; [reflexivity|]. split; [reflexivity|]. exact Hg.
Defined.
